(** * i2cdev: thread-safe I2C master access (components/i2cdev/i2cdev.c)

    A shallow embedding of [i2cdev.c] and the properties of its read, write,
    port set-up and shutdown paths.

    The C file keeps two file-scope arrays ([locks] and [configs]) and talks
    to two external collaborators: the FreeRTOS semaphore API and the ESP-IDF
    I2C master driver.  The arrays are modelled as an explicit state
    ([Globals]); every call that leaves the file is a node of a small
    free monad ([Prog]), answered by an arbitrary handler [env] over an
    arbitrary world [W].  Running a program yields its result together with
    the trace of the external calls it made and of the answers it got. *)

From Stdlib Require Import ZArith String List Lia Bool.
From stdpp Require Import base list.
Import ListNotations.
Local Open Scope Z_scope.

(** ** Data *)

(** [esp_err_t] is a C [int]; the four codes the file names. *)
Abbreviation esp_err_t := Z (only parsing).
Definition ESP_OK : esp_err_t := 0.
Definition ESP_FAIL : esp_err_t := -1.
Definition ESP_ERR_INVALID_ARG : esp_err_t := 258. (* 0x102 *)
Definition ESP_ERR_TIMEOUT : esp_err_t := 263.     (* 0x107 *)

Inductive i2c_mode_t := I2C_MODE_SLAVE | I2C_MODE_MASTER | I2C_MODE_MAX.
Inductive i2c_ack_type_t := I2C_MASTER_ACK | I2C_MASTER_NACK | I2C_MASTER_LAST_NACK.

(** Index of a hardware controller, used to subscript [locks] and [configs]. *)
Abbreviation i2c_port_t := nat (only parsing).

(** The fields of the driver's [i2c_config_t] that the file touches;
    [master_clk_speed] is [master.clk_speed]. *)
Record i2c_config_t := mk_i2c_config {
  mode : i2c_mode_t;
  sda_io_num : Z;
  sda_pullup_en : Z;
  scl_io_num : Z;
  scl_pullup_en : Z;
  master_clk_speed : Z
}.

Record i2c_dev_t := mk_i2c_dev {
  port : i2c_port_t;
  cfg : i2c_config_t;
  addr : Z
}.

(** Handles and [void *] arguments are addresses; the null pointer is 0.
    The file never dereferences a data pointer, it only tests it against
    null and hands it to the driver together with its size. *)
Abbreviation ptr := Z (only parsing).
Definition NULL : ptr := 0.

(** C truth of an integer or pointer used as a condition. *)
Definition truthy (z : Z) : bool := negb (z =? 0).

(** Conversion to the driver's [uint8_t] parameter. *)
Definition to_uint8 (z : Z) : Z := Z.land z 255.

(** A zero-filled [i2c_config_t], the content of a static array element
    before anything is stored in it. *)
Definition zero_config : i2c_config_t :=
  mk_i2c_config I2C_MODE_SLAVE 0 0 0 0 0.

(** The two file-scope arrays. *)
Record Globals := mk_globals {
  locks : list Z;
  configs : list i2c_config_t
}.

(** ** External calls *)

Inductive call :=
| xSemaphoreCreateMutex
| xSemaphoreTake (sem : Z) (ticks : Z)
| xSemaphoreGive (sem : Z)
| vSemaphoreDelete (sem : Z)
| i2c_driver_delete (p : i2c_port_t)
| i2c_param_config (p : i2c_port_t) (conf : i2c_config_t)
| i2c_driver_install (p : i2c_port_t) (m : i2c_mode_t) (rx tx flags : Z)
| i2c_cmd_link_create
| i2c_master_start (cmd : Z)
| i2c_master_write_byte (cmd : Z) (data : Z) (ack_en : bool)
| i2c_master_write (cmd : Z) (data : ptr) (len : Z) (ack_en : bool)
| i2c_master_read (cmd : Z) (data : ptr) (len : Z) (ack : i2c_ack_type_t)
| i2c_master_stop (cmd : Z)
| i2c_master_cmd_begin (p : i2c_port_t) (cmd : Z) (ticks : Z)
| i2c_cmd_link_delete (cmd : Z)
| ESP_LOGE (tag fmt : string) (args : list Z).

(** One external call with the value it returned (0 for [void]). *)
Definition event : Type := call * Z.
Definition trace := list event.

(** ** Programs *)

(** A program either returns, runs into undefined behaviour (an array
    subscript outside the array), or makes an external call and goes on
    with its answer. *)
Inductive Prog (A : Type) : Type :=
| Ret (a : A)
| Undef
| Vis (c : call) (k : Z -> Prog A).
Arguments Ret {A} a.
Arguments Undef {A}.
Arguments Vis {A} c k.

Fixpoint pbind {A B} (p : Prog A) (f : A -> Prog B) : Prog B :=
  match p with
  | Ret a => f a
  | Undef => Undef
  | Vis c k => Vis c (fun r => pbind (k r) f)
  end.

(** Code of the file: a program over the two arrays. *)
Definition M (A : Type) : Type := Globals -> Prog (A * Globals).

Definition ret {A} (a : A) : M A := fun g => Ret (a, g).
Definition bind {A B} (m : M A) (f : A -> M B) : M B :=
  fun g => pbind (m g) (fun ag => f (fst ag) (snd ag)).
Definition do_call (c : call) : M Z := fun g => Vis c (fun r => Ret (r, g)).

#[global] Instance M_ret : MRet M := @ret.
#[global] Instance M_bind : MBind M := fun A B f m => bind m f.

(** [locks[i]] and [configs[i]] as rvalues, [locks[i] = h] as a store. *)
Definition load_lock (i : nat) : M Z :=
  fun g => match locks g !! i with Some h => Ret (h, g) | None => Undef end.
Definition load_config (i : nat) : M i2c_config_t :=
  fun g => match configs g !! i with Some c => Ret (c, g) | None => Undef end.
Definition store_lock (i : nat) (h : Z) : M unit :=
  fun g => match locks g !! i with
           | Some _ => Ret (tt, mk_globals (<[i := h]> (locks g)) (configs g))
           | None => Undef
           end.

(** ** Semantics *)

Inductive outcome (A : Type) : Type :=
| Done (a : A)
| Fault.
Arguments Done {A} a.
Arguments Fault {A}.

Section Semantics.
Context {W : Type}.
Variable env : call -> W -> Z * W.

Fixpoint run {A} (p : Prog A) (w : W) : outcome A * trace * W :=
    match p with
    | Ret a => (Done a, [], w)
    | Undef => (Fault, [], w)
    | Vis c k =>
        let '(r, w1) := env c w in
        let '(o, tr, w2) := run (k r) w1 in
        (o, (c, r) :: tr, w2)
    end.

Definition result {A} (x : outcome A * trace * W) : outcome A := fst (fst x).
Definition events {A} (x : outcome A * trace * W) : trace := snd (fst x).
Definition world {A} (x : outcome A * trace * W) : W := snd x.
End Semantics.

(** ** The file *)

Section I2cdev.
(** Constants of the build that the file only names. *)
Variable I2C_NUM_MAX : nat.
Variable CONFIG_I2CDEV_TIMEOUT : Z.
Variable portTICK_RATE_MS : Z.

Definition TAG : string := "I2C_DEV".
Definition timeout_ticks : Z := Z.quot CONFIG_I2CDEV_TIMEOUT portTICK_RATE_MS.

(** The two macros return from the enclosing function on failure; [k] is
      the rest of that function. *)
Definition SEMAPHORE_TAKE (p : i2c_port_t) (k : M esp_err_t) : M esp_err_t :=
    h ← load_lock p ;
    r ← do_call (xSemaphoreTake h timeout_ticks) ;
    if truthy r then k
    else
      do_call (ESP_LOGE TAG "Could not take mutex %d" [Z.of_nat p]) ;;
      ret ESP_ERR_TIMEOUT.

Definition SEMAPHORE_GIVE (p : i2c_port_t) (k : M esp_err_t) : M esp_err_t :=
    h ← load_lock p ;
    r ← do_call (xSemaphoreGive h) ;
    if truthy r then k
    else
      do_call (ESP_LOGE TAG "Could not give mutex %d" [Z.of_nat p]) ;;
      ret ESP_FAIL.

(** [for (int i = 0; i < I2C_NUM_MAX; i++)] with [n] iterations left. *)
Fixpoint i2cdev_init_from (n : nat) (i : nat) : M esp_err_t :=
    match n with
    | O => ret ESP_OK
    | S n' =>
        h ← do_call xSemaphoreCreateMutex ;
        store_lock i h ;;
        if truthy h then i2cdev_init_from n' (S i)
        else
          do_call (ESP_LOGE TAG "Could not create mutex %d" [Z.of_nat i]) ;;
          ret ESP_FAIL
    end.

Definition i2cdev_init : M esp_err_t := i2cdev_init_from I2C_NUM_MAX 0.

Fixpoint i2cdev_done_from (n : nat) (i : nat) : M esp_err_t :=
    match n with
    | O => ret ESP_OK
    | S n' =>
        h ← load_lock i ;
        if truthy h then
          SEMAPHORE_TAKE i (
            do_call (i2c_driver_delete i) ;;
            SEMAPHORE_GIVE i (
              h' ← load_lock i ;
              do_call (vSemaphoreDelete h') ;;
              i2cdev_done_from n' (S i)))
        else i2cdev_done_from n' (S i)
    end.

Definition i2cdev_done : M esp_err_t := i2cdev_done_from I2C_NUM_MAX 0.

Definition cfg_equal (a b : i2c_config_t) : bool :=
    (scl_io_num a =? scl_io_num b)
    && (sda_io_num a =? sda_io_num b)
    && (scl_pullup_en a =? scl_pullup_en b)
    && (sda_pullup_en a =? sda_pullup_en b)
    && (master_clk_speed a =? master_clk_speed b).

(** [temp] after the [memcpy] and the assignment to [temp.mode]. *)
Definition with_master_mode (c : i2c_config_t) : i2c_config_t :=
    mk_i2c_config I2C_MODE_MASTER (sda_io_num c) (sda_pullup_en c)
                  (scl_io_num c) (scl_pullup_en c) (master_clk_speed c).

Definition i2c_setup_port (p : i2c_port_t) (cfg : option i2c_config_t)
    : M esp_err_t :=
    match cfg with
    | None => ret ESP_ERR_INVALID_ARG
    | Some c =>
        cached ← load_config p ;
        if negb (cfg_equal c cached) then
          let temp := with_master_mode c in
          do_call (i2c_driver_delete p) ;;
          res ← do_call (i2c_param_config p temp) ;
          if negb (res =? ESP_OK) then ret res
          else
            res ← do_call (i2c_driver_install p (mode temp) 0 0 0) ;
            if negb (res =? ESP_OK) then ret res
            else ret ESP_OK
        else ret ESP_OK
    end.

Definition i2c_dev_read (dev : option i2c_dev_t)
      (out_data : ptr) (out_size : Z) (in_data : ptr) (in_size : Z)
    : M esp_err_t :=
    match dev with
    | None => ret ESP_ERR_INVALID_ARG
    | Some d =>
      if negb (truthy in_data) || negb (truthy in_size)
      then ret ESP_ERR_INVALID_ARG
      else
        SEMAPHORE_TAKE (port d) (
          res ← i2c_setup_port (port d) (Some (cfg d)) ;
          res ←
            (if res =? ESP_OK then
               cmd ← do_call i2c_cmd_link_create ;
               (if truthy out_data && truthy out_size then
                  do_call (i2c_master_start cmd) ;;
                  do_call (i2c_master_write_byte cmd
                             (to_uint8 (Z.shiftl (addr d) 1)) true) ;;
                  do_call (i2c_master_write cmd out_data out_size true) ;;
                  ret tt
                else ret tt) ;;
               do_call (i2c_master_start cmd) ;;
               do_call (i2c_master_write_byte cmd
                          (to_uint8 (Z.lor (Z.shiftl (addr d) 1) 1)) true) ;;
               do_call (i2c_master_read cmd in_data in_size
                          I2C_MASTER_LAST_NACK) ;;
               do_call (i2c_master_stop cmd) ;;
               res ← do_call (i2c_master_cmd_begin (port d) cmd
                                 timeout_ticks) ;
               (if negb (res =? ESP_OK) then
                  do_call (ESP_LOGE TAG
                     "Could not read from device [0x%02x at %d]: %d"
                     [addr d; Z.of_nat (port d); res]) ;; ret tt
                else ret tt) ;;
               do_call (i2c_cmd_link_delete cmd) ;;
               ret res
             else ret res) ;
          SEMAPHORE_GIVE (port d) (ret res))
    end.

(** The inner block declares its own [res]; the function returns the
      outer one. *)
Definition i2c_dev_write (dev : option i2c_dev_t)
      (out_reg : ptr) (out_reg_size : Z) (out_data : ptr) (out_size : Z)
    : M esp_err_t :=
    match dev with
    | None => ret ESP_ERR_INVALID_ARG
    | Some d =>
      if negb (truthy out_data) || negb (truthy out_size)
      then ret ESP_ERR_INVALID_ARG
      else
        SEMAPHORE_TAKE (port d) (
          res ← i2c_setup_port (port d) (Some (cfg d)) ;
          (if res =? ESP_OK then
             cmd ← do_call i2c_cmd_link_create ;
             do_call (i2c_master_start cmd) ;;
             do_call (i2c_master_write_byte cmd
                        (to_uint8 (Z.shiftl (addr d) 1)) true) ;;
             (if truthy out_reg && truthy out_reg_size then
                do_call (i2c_master_write cmd out_reg out_reg_size true) ;;
                ret tt
              else ret tt) ;;
             do_call (i2c_master_write cmd out_data out_size true) ;;
             do_call (i2c_master_stop cmd) ;;
             res' ← do_call (i2c_master_cmd_begin (port d) cmd
                                timeout_ticks) ;
             (if negb (res' =? ESP_OK) then
                do_call (ESP_LOGE TAG
                   "Could not write to device [0x%02x at %d]: %d"
                   [addr d; Z.of_nat (port d); res']) ;; ret tt
              else ret tt) ;;
             do_call (i2c_cmd_link_delete cmd) ;;
             ret tt
           else ret tt) ;;
          SEMAPHORE_GIVE (port d) (ret res))
    end.
End I2cdev.

(** ** A scripted driver

    A concrete world for running the file: the semaphore calls answer by
    handle, the three fallible driver calls answer a fixed code, and handles
    are handed out from a counter. *)
Module FakeDriver.
Record t := mk {
    take_ret : Z -> Z;
    give_ret : Z -> Z;
    param_ret : esp_err_t;
    install_ret : esp_err_t;
    begin_ret : esp_err_t;
    fresh : Z
  }.

Definition bump (w : t) : t :=
    mk (take_ret w) (give_ret w) (param_ret w) (install_ret w) (begin_ret w)
       (fresh w + 1).

Definition env (c : call) (w : t) : Z * t :=
    match c with
    | xSemaphoreCreateMutex => (fresh w, bump w)
    | i2c_cmd_link_create => (fresh w, bump w)
    | xSemaphoreTake s _ => (take_ret w s, w)
    | xSemaphoreGive s => (give_ret w s, w)
    | i2c_param_config _ _ => (param_ret w, w)
    | i2c_driver_install _ _ _ _ _ => (install_ret w, w)
    | i2c_master_cmd_begin _ _ _ => (begin_ret w, w)
    | _ => (0, w)
    end.

(** Every call succeeds. *)
Definition healthy : t := mk (fun _ => 1) (fun _ => 1) 0 0 0 200.

(** Every take times out. *)
Definition stuck : t := mk (fun _ => 0) (fun _ => 1) 0 0 0 200.

(** Every give fails. *)
Definition leaky : t := mk (fun _ => 1) (fun _ => 0) 0 0 0 200.

(** The bus does not answer: every transfer fails. *)
Definition noisy : t := mk (fun _ => 1) (fun _ => 1) 0 0 ESP_FAIL 200.

(** The lock of the second port is held by someone else. *)
Definition jammed : t :=
  mk (fun s => if s =? 101 then 0 else 1) (fun _ => 1) 0 0 0 200.

(** The lock of the second port cannot be given back. *)
Definition torn : t :=
  mk (fun _ => 1) (fun s => if s =? 101 then 0 else 1) 0 0 0 200.

(** The driver at start-up, and the arrays as the C runtime zero-fills
    them for two ports. *)
Definition boot : t := mk (fun _ => 1) (fun _ => 1) 0 0 0 100.
Definition g0 : Globals := mk_globals [NULL; NULL] [zero_config; zero_config].

(** Two ports, both locks created, nothing stored in [configs] yet. *)
Definition g2 : Globals := mk_globals [100; 101] [zero_config; zero_config].

(** A sensor at address 0x48 on port 0, standard pins, 100 kHz. *)
Definition sensor : i2c_dev_t :=
    mk_i2c_dev 0%nat (mk_i2c_config I2C_MODE_MASTER 21 1 22 1 100000) 72.
End FakeDriver.

(** ** Observations on traces *)

(** Semaphores handed to [xSemaphoreGive], in call order. *)
Definition gives (tr : trace) : list Z :=
  omap (fun e : event =>
          match fst e with xSemaphoreGive s => Some s | _ => None end) tr.

(** Semaphores handed to [vSemaphoreDelete], in call order. *)
Definition destroyed (tr : trace) : list Z :=
  omap (fun e : event =>
          match fst e with vSemaphoreDelete s => Some s | _ => None end) tr.

(** Ports handed to [i2c_driver_delete], in call order. *)
Definition deleted_ports (tr : trace) : list i2c_port_t :=
  omap (fun e : event =>
          match fst e with i2c_driver_delete p => Some p | _ => None end) tr.

(** The calls that tear down, configure or install a port driver. *)
Definition is_reconfig_call (c : call) : bool :=
  match c with
  | i2c_driver_delete _ | i2c_param_config _ _
  | i2c_driver_install _ _ _ _ _ => true
  | _ => false
  end.
Definition reconfig_calls (tr : trace) : list call :=
  List.filter is_reconfig_call (map fst tr).

(** The calls of the driver's command-link interface. *)
Definition is_cmd_call (c : call) : bool :=
  match c with
  | i2c_cmd_link_create | i2c_master_start _ | i2c_master_write_byte _ _ _
  | i2c_master_write _ _ _ _ | i2c_master_read _ _ _ _ | i2c_master_stop _
  | i2c_master_cmd_begin _ _ _ | i2c_cmd_link_delete _ => true
  | _ => false
  end.
Definition cmd_calls (tr : trace) : list call :=
  List.filter is_cmd_call (map fst tr).

(** The handle answered by [i2c_cmd_link_create], when the trace has one. *)
Definition link_handle (tr : trace) : option Z :=
  head (omap (fun e : event =>
                match fst e with
                | i2c_cmd_link_create => Some (snd e)
                | _ => None
                end) tr).

(** Some [xSemaphoreTake] of the trace answered 0 ([pdFALSE]). *)
Definition take_timed_out (tr : trace) : bool :=
  existsb (fun e : event =>
             match fst e with
             | xSemaphoreTake _ _ => snd e =? 0
             | _ => false
             end) tr.

(** Some [xSemaphoreGive] of the trace answered 0. *)
Definition give_failed (tr : trace) : bool :=
  existsb (fun e : event =>
             match fst e with
             | xSemaphoreGive _ => snd e =? 0
             | _ => false
             end) tr.

(** The answer of [i2c_master_cmd_begin], when the trace has one. *)
Definition transfer_result (tr : trace) : option esp_err_t :=
  head (omap (fun e : event =>
                match fst e with
                | i2c_master_cmd_begin _ _ _ => Some (snd e)
                | _ => None
                end) tr).

(** The two diagnostics of the semaphore macros, for port [k]. *)
Definition take_msg (k : nat) : call :=
  ESP_LOGE TAG "Could not take mutex %d" [Z.of_nat k].
Definition give_msg (k : nat) : call :=
  ESP_LOGE TAG "Could not give mutex %d" [Z.of_nat k].

(** Handles answered by [xSemaphoreCreateMutex], in call order. *)
Definition created (tr : trace) : list Z :=
  omap (fun e : event =>
          match fst e with xSemaphoreCreateMutex => Some (snd e) | _ => None end)
       tr.

(** The diagnostic of [i2cdev_init] for port [k]. *)
Definition create_msg (k : nat) : call :=
  ESP_LOGE TAG "Could not create mutex %d" [Z.of_nat k].

(** The indices, counted from [i], of the non-null entries of a lock array. *)
Fixpoint live_from (i : nat) (l : list Z) : list nat :=
  match l with
  | [] => []
  | h :: l' => if truthy h then i :: live_from (S i) l' else live_from (S i) l'
  end.

(** The first answer other than [ESP_OK] of [i2c_param_config] or
    [i2c_driver_install], when the trace has one. *)
Definition apply_error (tr : trace) : option Z :=
  head (omap (fun e : event =>
                match fst e with
                | i2c_param_config _ _ | i2c_driver_install _ _ _ _ _ =>
                    if snd e =? ESP_OK then None else Some (snd e)
                | _ => None
                end) tr).

(** The port a driver call acts on. *)
Definition call_port (c : call) : option nat :=
  match c with
  | i2c_driver_delete p | i2c_param_config p _
  | i2c_driver_install p _ _ _ _ | i2c_master_cmd_begin p _ _ => Some p
  | _ => None
  end.

(** The driver calls on a port made while the semaphore stored for that port
    in [locks] is not held.  [held] is the semaphore currently held: set by
    a take that answered non-zero, cleared by a give. *)
Fixpoint unlocked_calls (g : Globals) (held : option Z) (tr : trace)
  : list call :=
  match tr with
  | [] => []
  | (c, r) :: tr' =>
      match c with
      | xSemaphoreTake s _ =>
          unlocked_calls g (if truthy r then Some s else held) tr'
      | xSemaphoreGive _ => unlocked_calls g None tr'
      | _ =>
          match call_port c with
          | None => unlocked_calls g held tr'
          | Some p =>
              match held, locks g !! p with
              | Some s, Some s' =>
                  if s =? s' then unlocked_calls g held tr'
                  else c :: unlocked_calls g held tr'
              | _, _ => c :: unlocked_calls g held tr'
              end
          end
      end
  end.

(** Ports for which [i2c_driver_install] answered [ESP_OK], in call order. *)
Definition installs_ok (tr : trace) : list nat :=
  omap (fun e : event =>
          match fst e with
          | i2c_driver_install p _ _ _ _ =>
              if snd e =? ESP_OK then Some p else None
          | _ => None
          end) tr.

(** ** A driver that answers from a script

    The answers are handed out in order, whatever the call; 0 when the
    script is used up. *)
Module Script.
Definition env (c : call) (w : list Z) : Z * list Z :=
  match w with
  | [] => (0, [])
  | r :: w' => (r, w')
  end.
End Script.

(** ** Conditions *)

Lemma truthy_false (z : Z) : truthy z = false <-> z = 0.
Proof. unfold truthy. destruct (Z.eqb_spec z 0); simpl; intuition congruence. Qed.

Lemma truthy_true (z : Z) : truthy z = true <-> z <> 0.
Proof. unfold truthy. destruct (Z.eqb_spec z 0); simpl; intuition congruence. Qed.

Lemma truthy_eqb (z : Z) : truthy z = true -> (z =? 0) = false.
Proof. unfold truthy. intros H. apply negb_true_iff in H. exact H. Qed.

(** ** Symbolic execution *)

Create HintDb i2cdev discriminated.
#[global] Hint Unfold i2c_dev_read i2c_dev_write i2c_setup_port
  SEMAPHORE_TAKE SEMAPHORE_GIVE load_lock load_config store_lock do_call ret
  mbind mret M_bind M_ret bind result events world : i2cdev.

Ltac unfold_code :=
  autounfold with i2cdev in *;
  cbn [run pbind fst snd negb andb orb] in *.

Ltac exec_step env :=
  match goal with
  | H : ?x = Some _ |- context [match ?x with Some _ => _ | None => _ end] =>
      rewrite H
  | H : ?b = _ |- context [if ?b then _ else _] => rewrite H
  | |- context [ESP_OK =? ESP_OK] => change (ESP_OK =? ESP_OK) with true
  | |- context [env ?c ?w] =>
      let r := fresh "r" in let w' := fresh "w" in let E := fresh "E" in
      destruct (env c w) as [r w'] eqn:E
  | |- context [match ?x !! ?i with Some _ => _ | None => _ end] =>
      let E := fresh "E" in destruct (x !! i) eqn:E
  | |- context [if ?b then _ else _] =>
      let E := fresh "E" in destruct b eqn:E
  end; unfold_code.

Ltac absurd_branch :=
  match goal with
  | H : false = true |- _ => discriminate H
  | H : true = false |- _ => discriminate H
  end.

Ltac exec env := unfold_code; repeat (exec_step env; try absurd_branch).

(** Turns what is known of the tested answers into facts on [=? 0]. *)
Ltac use_truthy :=
  repeat match goal with
         | H : truthy ?z = false |- _ => apply truthy_false in H; subst z
         | H : truthy ?z = true |- _ => apply truthy_eqb in H
         end.

Section Properties.
Context {W : Type}.
Variable env : call -> W -> Z * W.
Variable I2C_NUM_MAX : nat.
Variable CONFIG_I2CDEV_TIMEOUT : Z.
Variable portTICK_RATE_MS : Z.

Abbreviation ticks := (timeout_ticks CONFIG_I2CDEV_TIMEOUT portTICK_RATE_MS).
Abbreviation read := (i2c_dev_read CONFIG_I2CDEV_TIMEOUT portTICK_RATE_MS).
Abbreviation write := (i2c_dev_write CONFIG_I2CDEV_TIMEOUT portTICK_RATE_MS).
Abbreviation done_from :=
  (i2cdev_done_from CONFIG_I2CDEV_TIMEOUT portTICK_RATE_MS).

(** *** Conditions and observations *)

Lemma destroyed_cons (e : event) (tr : trace) :
  destroyed (e :: tr)
  = match fst e with
    | vSemaphoreDelete s => s :: destroyed tr
    | _ => destroyed tr
    end.
Proof. destruct e as [[] ?]; reflexivity. Qed.

Lemma deleted_ports_cons (e : event) (tr : trace) :
  deleted_ports (e :: tr)
  = match fst e with
    | i2c_driver_delete p => p :: deleted_ports tr
    | _ => deleted_ports tr
    end.
Proof. destruct e as [[] ?]; reflexivity. Qed.

(** The address byte of a 7-bit address fits the driver's [uint8_t]. *)
Lemma to_uint8_small (z : Z) : 0 <= z < 256 -> to_uint8 z = z.
Proof.
  intros Hz. unfold to_uint8. change 255 with (Z.ones 8).
  rewrite Z.land_ones by lia. apply Z.mod_small. exact Hz.
Qed.

Lemma shiftl_1_lor_1 (a : Z) : Z.lor (Z.shiftl a 1) 1 = 2 * a + 1.
Proof.
  assert (Hl : Z.land (Z.shiftl a 1) (Z.ones 1) = 0).
  { rewrite Z.land_ones, Z.shiftl_mul_pow2 by lia. apply Z.mod_mul. lia. }
  pose proof (Z.add_lor_land (Z.shiftl a 1) 1) as H.
  change (Z.ones 1) with 1 in Hl. rewrite Hl in H.
  rewrite Z.shiftl_mul_pow2 in H |- * by lia. lia.
Qed.

Lemma address_bytes (a : Z) :
  0 <= a < 128 ->
  to_uint8 (Z.shiftl a 1) = Z.shiftl a 1
  /\ to_uint8 (Z.lor (Z.shiftl a 1) 1) = Z.lor (Z.shiftl a 1) 1.
Proof.
  intros Ha. split; apply to_uint8_small.
  - rewrite Z.shiftl_mul_pow2 by lia. change (2 ^ 1) with 2. lia.
  - rewrite shiftl_1_lor_1. lia.
Qed.

(** *** The arrays are never written by a transaction *)

(** [i2c_setup_port] hands back the arrays it was given, whatever the
    driver answers: no path of the function assigns to [configs]. *)
Lemma i2c_setup_port_keeps_globals
    (p : nat) (cfg : option i2c_config_t) (g : Globals) (w : W)
    (e : Z) (g' : Globals) :
  result (run env (i2c_setup_port p cfg g) w) = Done (e, g') -> g' = g.
Proof.
  destruct cfg as [c|]; exec env; intros [= _ <-]; reflexivity.
Qed.

Lemma i2c_dev_read_keeps_globals
    (dev : option i2c_dev_t) (p1 : ptr) (n1 : Z) (p2 : ptr) (n2 : Z)
    (g : Globals) (w : W) (e : Z) (g' : Globals) :
  result (run env (read dev p1 n1 p2 n2 g) w) = Done (e, g') -> g' = g.
Proof.
  destruct dev as [d|]; exec env; intros [= _ <-]; reflexivity.
Qed.

Lemma i2c_dev_write_keeps_globals
    (dev : option i2c_dev_t) (p1 : ptr) (n1 : Z) (p2 : ptr) (n2 : Z)
    (g : Globals) (w : W) (e : Z) (g' : Globals) :
  result (run env (write dev p1 n1 p2 n2 g) w) = Done (e, g') -> g' = g.
Proof.
  destruct dev as [d|]; exec env; intros [= _ <-]; reflexivity.
Qed.

(** Whenever the device's configuration differs from the array element,
    the port driver is deleted and configured again. *)
Lemma i2c_setup_port_miss
    (p : nat) (c cached : i2c_config_t) (g : Globals) (w : W) :
  configs g !! p = Some cached ->
  cfg_equal c cached = false ->
  exists tr,
    reconfig_calls (events (run env (i2c_setup_port p (Some c) g) w))
    = i2c_driver_delete p :: i2c_param_config p (with_master_mode c) :: tr.
Proof.
  intros Hc Hne. unfold_code. rewrite Hc. unfold_code. rewrite Hne.
  exec env; eexists; reflexivity.
Qed.

(** *** The transfer result in the two transaction functions *)

(** [i2c_dev_read] assigns the answer of [i2c_master_cmd_begin] to the
    [res] it returns. *)
Lemma i2c_dev_read_transfer_result
    (dev : option i2c_dev_t) (p1 : ptr) (n1 : Z) (p2 : ptr) (n2 : Z)
    (g : Globals) (w : W) (e : Z) :
  transfer_result (events (run env (read dev p1 n1 p2 n2 g) w)) = Some e ->
  give_failed (events (run env (read dev p1 n1 p2 n2 g) w)) = false ->
  result (run env (read dev p1 n1 p2 n2 g) w) = Done (e, g).
Proof.
  destruct dev as [d|]; try discriminate; exec env.
  all: use_truthy.
  all: cbn [transfer_result omap list_omap head give_failed existsb fst snd orb].
  all: intros Ht Hg; try discriminate Ht; try discriminate Hg.
  all: injection Ht as <-; reflexivity.
Qed.

(** [i2c_dev_write] stores that answer in the [res] of the inner block and
    returns the outer one, which is [ESP_OK] on this path. *)
Lemma i2c_dev_write_transfer_result
    (dev : option i2c_dev_t) (p1 : ptr) (n1 : Z) (p2 : ptr) (n2 : Z)
    (g : Globals) (w : W) (e : Z) :
  transfer_result (events (run env (write dev p1 n1 p2 n2 g) w)) = Some e ->
  give_failed (events (run env (write dev p1 n1 p2 n2 g) w)) = false ->
  result (run env (write dev p1 n1 p2 n2 g) w) = Done (ESP_OK, g).
Proof.
  destruct dev as [d|]; try discriminate; exec env.
  all: use_truthy.
  all: cbn [transfer_result omap list_omap head give_failed existsb fst snd orb].
  all: intros Ht Hg; try discriminate Ht; try discriminate Hg.
  all: repeat match goal with
         | H : (?r =? ESP_OK) = true |- _ => apply Z.eqb_eq in H; subst r
         end; reflexivity.
Qed.

(** *** Argument validation *)

(** Claim C4.  A read whose device descriptor is null, or whose input buffer
    is null or of size zero, and a write whose device descriptor is null, or
    whose output data is null or of size zero, returns
    [ESP_ERR_INVALID_ARG]; it makes no external call at all (no semaphore
    is taken, no driver function runs), it leaves both arrays as they
    were, and it does not even subscript them. *)
Theorem invalid_arguments_no_effect
    (dev : option i2c_dev_t) (p1 : ptr) (n1 : Z) (p2 : ptr) (n2 : Z)
    (g : Globals) (w : W) :
  dev = None \/ p2 = NULL \/ n2 = 0 ->
  run env (read dev p1 n1 p2 n2 g) w = (Done (ESP_ERR_INVALID_ARG, g), [], w)
  /\ run env (write dev p1 n1 p2 n2 g) w
     = (Done (ESP_ERR_INVALID_ARG, g), [], w).
Proof.
  intros H. destruct dev as [d|]; [|split; reflexivity].
  assert (Hb : negb (truthy p2) || negb (truthy n2) = true).
  { destruct H as [H|[H|H]]; [discriminate| |]; subst; unfold NULL; simpl.
    - reflexivity.
    - apply orb_true_r. }
  split; unfold_code; rewrite Hb; reflexivity.
Qed.

(** *** Lock acquisition *)

(** Claim C5.  On a valid device (arguments accepted, port inside the lock
    array), when [xSemaphoreTake] answers 0 the read and the write return
    [ESP_ERR_TIMEOUT]; their only external calls are that take and the
    diagnostic.  No driver function is called, the arrays are unchanged and
    [configs] is not subscripted (nothing is assumed about it). *)
Theorem lock_timeout_touches_nothing
    (d : i2c_dev_t) (p1 : ptr) (n1 : Z) (p2 : ptr) (n2 : Z)
    (g : Globals) (w : W) (h : Z) :
  p2 <> NULL -> n2 <> 0 ->
  locks g !! port d = Some h ->
  fst (env (xSemaphoreTake h ticks) w) = 0 ->
  let w1 := snd (env (xSemaphoreTake h ticks) w) in
  let msg := take_msg (port d) in
  let quiet := (Done (ESP_ERR_TIMEOUT, g),
                [(xSemaphoreTake h ticks, 0); (msg, fst (env msg w1))],
                snd (env msg w1)) in
  run env (read (Some d) p1 n1 p2 n2 g) w = quiet
  /\ run env (write (Some d) p1 n1 p2 n2 g) w = quiet.
Proof.
  intros Hp Hn Hl Ht w1 msg quiet. subst w1 msg quiet. unfold take_msg.
  apply truthy_true in Hp, Hn.
  split; unfold_code; rewrite Hp, Hn; unfold_code; rewrite Hl; unfold_code;
    destruct (env (xSemaphoreTake h ticks) w) as [r w1]; simpl in Ht; subst r;
    change (truthy 0) with false; unfold_code; destruct (env _ w1); reflexivity.
Qed.

(** Claim C6.  A read or write that takes the lock of its port calls
    [xSemaphoreGive] exactly once, on that lock, and then returns: this holds
    whatever the driver answers afterwards, so on success, on a failed port
    set-up and on a failed transfer alike. *)
Theorem lock_released_exactly_once
    (d : i2c_dev_t) (p1 : ptr) (n1 : Z) (p2 : ptr) (n2 : Z)
    (g : Globals) (w : W) (h : Z) (c : i2c_config_t) :
  p2 <> NULL -> n2 <> 0 ->
  locks g !! port d = Some h ->
  configs g !! port d = Some c ->
  fst (env (xSemaphoreTake h ticks) w) <> 0 ->
  (gives (events (run env (read (Some d) p1 n1 p2 n2 g) w)) = [h]
   /\ exists e, result (run env (read (Some d) p1 n1 p2 n2 g) w) = Done (e, g))
  /\
  (gives (events (run env (write (Some d) p1 n1 p2 n2 g) w)) = [h]
   /\ exists e, result (run env (write (Some d) p1 n1 p2 n2 g) w) = Done (e, g)).
Proof.
  intros Hp Hn Hl Hc Ht. apply truthy_true in Hp, Hn, Ht.
  split; unfold_code; rewrite Hp, Hn; exec env.
  all: try (cbn [fst] in Ht; congruence).
  all: split; [reflexivity | eauto].
Qed.

(** Claim C9.  When [xSemaphoreGive] answers 0 in a read or a write, the
    call returns [ESP_FAIL], whatever [res] held before; in particular a
    transfer that succeeded is reported as failed. *)
Theorem release_failure_supersedes
    (dev : option i2c_dev_t) (p1 : ptr) (n1 : Z) (p2 : ptr) (n2 : Z)
    (g : Globals) (w : W) :
  (give_failed (events (run env (read dev p1 n1 p2 n2 g) w)) = true ->
   result (run env (read dev p1 n1 p2 n2 g) w) = Done (ESP_FAIL, g))
  /\
  (give_failed (events (run env (write dev p1 n1 p2 n2 g) w)) = true ->
   result (run env (write dev p1 n1 p2 n2 g) w) = Done (ESP_FAIL, g)).
Proof.
  split; destruct dev as [d|]; try discriminate; exec env.
  all: cbn [give_failed existsb fst snd orb]; intros Hg.
  all: try discriminate Hg.
  all: try reflexivity.
  all: unfold truthy in *;
    match goal with
    | H : negb (?z =? 0) = true |- _ =>
        apply negb_true_iff in H; rewrite H in Hg; discriminate Hg
    end.
Qed.

(** *** Command sequences *)

(** Claim C7.  A read with a register prefix (pointer non-null, size
    non-zero) that gets as far as creating its command link [cmd] issues, on
    that link and in this order: start; the address byte with the write bit
    ([addr << 1]), acknowledged; the prefix bytes, acknowledged; a second
    start with no stop before it; the address byte with the read bit
    ([(addr << 1) | 1]), acknowledged; the read of the requested bytes with
    [I2C_MASTER_LAST_NACK]; stop.  The link is then executed on the port of
    the device and deleted. *)
Theorem read_command_sequence
    (d : i2c_dev_t) (p1 : ptr) (n1 : Z) (p2 : ptr) (n2 : Z)
    (g : Globals) (w : W) (cmd : Z) :
  p1 <> NULL -> n1 <> 0 ->
  0 <= addr d < 128 ->
  link_handle (events (run env (read (Some d) p1 n1 p2 n2 g) w)) = Some cmd ->
  cmd_calls (events (run env (read (Some d) p1 n1 p2 n2 g) w)) =
    [ i2c_cmd_link_create;
      i2c_master_start cmd;
      i2c_master_write_byte cmd (Z.shiftl (addr d) 1) true;
      i2c_master_write cmd p1 n1 true;
      i2c_master_start cmd;
      i2c_master_write_byte cmd (Z.lor (Z.shiftl (addr d) 1) 1) true;
      i2c_master_read cmd p2 n2 I2C_MASTER_LAST_NACK;
      i2c_master_stop cmd;
      i2c_master_cmd_begin (port d) cmd ticks;
      i2c_cmd_link_delete cmd ].
Proof.
  intros Hp Hn Ha. apply truthy_true in Hp, Hn.
  destruct (address_bytes _ Ha) as [Hw Hr].
  unfold_code. rewrite Hp, Hn, Hw, Hr. exec env.
  all: cbn [link_handle omap list_omap head fst snd]; intros Hc.
  all: try discriminate Hc.
  all: injection Hc as ->; reflexivity.
Qed.

(** Claim C8.  A write that gets as far as creating its command link [cmd]
    issues on it: start; the address byte with the write bit, acknowledged;
    the prefix bytes if and only if the prefix pointer is non-null and its
    size non-zero (otherwise no call at all is made for the prefix, and no
    further start); the data bytes; stop.  The link is then executed and
    deleted. *)
Theorem write_command_sequence
    (d : i2c_dev_t) (p1 : ptr) (n1 : Z) (p2 : ptr) (n2 : Z)
    (g : Globals) (w : W) (cmd : Z) :
  0 <= addr d < 128 ->
  link_handle (events (run env (write (Some d) p1 n1 p2 n2 g) w)) = Some cmd ->
  cmd_calls (events (run env (write (Some d) p1 n1 p2 n2 g) w)) =
    [ i2c_cmd_link_create;
      i2c_master_start cmd;
      i2c_master_write_byte cmd (Z.shiftl (addr d) 1) true ]
    ++ (if truthy p1 && truthy n1
        then [ i2c_master_write cmd p1 n1 true ] else [])
    ++ [ i2c_master_write cmd p2 n2 true;
         i2c_master_stop cmd;
         i2c_master_cmd_begin (port d) cmd ticks;
         i2c_cmd_link_delete cmd ].
Proof.
  intros Ha. destruct (address_bytes _ Ha) as [Hw _].
  unfold_code. rewrite Hw. exec env.
  all: cbn [link_handle omap list_omap head fst snd]; intros Hc.
  all: try discriminate Hc.
  all: injection Hc as ->; reflexivity.
Qed.

(** *** Shutdown *)

(** The loop of [i2cdev_done] from port [i] on, with [n] ports left: if a
    take times out or a give fails, it happened at some port [k], the
    function returned right there, and what had been torn down by then are
    the ports from [i] up to [k]. *)
Lemma done_from_abort (n : nat) :
  forall (i : nat) (g : Globals) (w : W) o tr w',
  (i + n)%nat = length (locks g) ->
  run env (done_from n i g) w = (o, tr, w') ->
  (take_timed_out tr = true ->
   exists k h x tr0,
     (i <= k)%nat /\ locks g !! k = Some h /\ truthy h = true
     /\ o = Done (ESP_ERR_TIMEOUT, g)
     /\ tr = tr0 ++ [(xSemaphoreTake h ticks, 0); (take_msg k, x)]
     /\ (forall p, In p (deleted_ports tr) -> (i <= p < k)%nat)
     /\ destroyed tr = List.filter truthy (take (k - i) (drop i (locks g))))
  /\
  (give_failed tr = true ->
   exists k h x tr0,
     (i <= k)%nat /\ locks g !! k = Some h /\ truthy h = true
     /\ o = Done (ESP_FAIL, g)
     /\ tr = tr0 ++ [(xSemaphoreGive h, 0); (give_msg k, x)]
     /\ (forall p, In p (deleted_ports tr) -> (i <= p <= k)%nat)
     /\ destroyed tr = List.filter truthy (take (k - i) (drop i (locks g)))).
Proof.
  induction n as [|n IH]; intros i g w o tr w' Hlen.
  - intros [= <- <- <-]. split; discriminate.
  - cbn [i2cdev_done_from].
    assert (is_Some (locks g !! i)) as [h Hh] by (apply lookup_lt_is_Some; lia).
    assert (Hlen' : (S i + n)%nat = length (locks g)) by lia.
    assert (Hdrop : forall k, (S i <= k)%nat ->
              take (k - i) (drop i (locks g))
              = h :: take (k - S i) (drop (S i) (locks g))).
    { intros k Hk. rewrite (drop_S _ _ _ Hh).
      replace (k - i)%nat with (S (k - S i)) by lia. reflexivity. }
    specialize (IH (S i) g).
    exec env.
    all: match goal with
         | |- context [run env ?p ?w0] =>
             destruct (run env p w0) as [[o1 tr1] wf] eqn:ER;
             specialize (IH _ _ _ _ Hlen' ER)
         | _ => clear IH
         end.
    all: intros [= <- <- <-].
    all: repeat match goal with
           | H : truthy _ = true |- _ => pose proof (truthy_eqb _ H); revert H
           | H : truthy _ = false |- _ => apply truthy_false in H; subst
           end; intros.
    all: cbn [take_timed_out give_failed existsb fst snd orb].
    all: repeat match goal with
           | H : (_ =? 0) = false |- _ => rewrite H; clear H
           end.
    all: cbn [orb].
    + (* port [i] torn down, the loop goes on *)
      destruct IH as [IHt IHg].
      split; intros Hf; [destruct (IHt Hf) as (k & h0 & x & tr0 & IHk)
                        |destruct (IHg Hf) as (k & h0 & x & tr0 & IHk)].
      all: destruct IHk as (Hk & Hl & Hth & -> & -> & Hdel & Hdes).
      all: exists k, h0, x,
             ((xSemaphoreTake h ticks, r) :: (i2c_driver_delete i, r0)
              :: (xSemaphoreGive h, r1) :: (vSemaphoreDelete h, r2) :: tr0).
      all: split_and!; try assumption; try lia; try reflexivity.
      all: rewrite ?deleted_ports_cons, ?destroyed_cons; cbn [fst].
      all: try (intros p [<-|Hp]; [lia | apply Hdel in Hp; lia]).
      all: rewrite (Hdrop k Hk); cbn [List.filter]; rewrite E, Hdes; reflexivity.
    + (* releasing the lock of port [i] fails *)
      split; [discriminate|intros _].
      exists i, h, r2,
        [(xSemaphoreTake h ticks, r); (i2c_driver_delete i, r0)].
      split_and!; try assumption; try lia; try reflexivity.
      * rewrite !deleted_ports_cons; cbn [fst]. intros p [<-|[]]. lia.
      * rewrite Nat.sub_diag. reflexivity.
    + (* taking the lock of port [i] times out *)
      split; [intros _|discriminate].
      exists i, h, r0, [].
      split_and!; try assumption; try lia; try reflexivity.
      * intros p [].
      * rewrite Nat.sub_diag. reflexivity.
    + (* no lock on port [i]: skipped *)
      destruct IH as [IHt IHg].
      split; intros Hf; [destruct (IHt Hf) as (k & h0 & x & tr0 & IHk)
                        |destruct (IHg Hf) as (k & h0 & x & tr0 & IHk)].
      all: destruct IHk as (Hk & Hl & Hth & -> & -> & Hdel & Hdes).
      all: exists k, h0, x, tr0.
      all: split_and!; try assumption; try lia; try reflexivity.
      all: try (intros p Hp; apply Hdel in Hp; lia).
      all: rewrite (Hdrop k Hk); cbn [List.filter].
      all: change (truthy 0) with false; cbn iota; exact Hdes.
Qed.

(** Claim C10.  In [i2cdev_done], when the take of some port's lock times
    out, the function returns [ESP_ERR_TIMEOUT] at once (the take and its
    diagnostic are the last calls made): [i2c_driver_delete] has been called
    for earlier ports only, and the locks handed to [vSemaphoreDelete] are
    exactly the non-null locks of the earlier ports, so the lock of that port
    and of every later port is still there.  When instead the give of some
    port's lock fails, the function returns [ESP_FAIL] at once in the same
    way, with that port's lock and all later ones not destroyed. *)
Theorem shutdown_stops_at_lock_failure (g : Globals) (w : W) :
  length (locks g) = I2C_NUM_MAX ->
  let done := i2cdev_done I2C_NUM_MAX CONFIG_I2CDEV_TIMEOUT portTICK_RATE_MS in
  (take_timed_out (events (run env (done g) w)) = true ->
   exists k h x tr0,
     locks g !! k = Some h /\ h <> NULL
     /\ result (run env (done g) w) = Done (ESP_ERR_TIMEOUT, g)
     /\ events (run env (done g) w)
        = tr0 ++ [(xSemaphoreTake h ticks, 0); (take_msg k, x)]
     /\ (forall p, In p (deleted_ports (events (run env (done g) w)))
                   -> (p < k)%nat)
     /\ destroyed (events (run env (done g) w))
        = List.filter truthy (take k (locks g)))
  /\
  (give_failed (events (run env (done g) w)) = true ->
   exists k h x tr0,
     locks g !! k = Some h /\ h <> NULL
     /\ result (run env (done g) w) = Done (ESP_FAIL, g)
     /\ events (run env (done g) w)
        = tr0 ++ [(xSemaphoreGive h, 0); (give_msg k, x)]
     /\ (forall p, In p (deleted_ports (events (run env (done g) w)))
                   -> (p <= k)%nat)
     /\ destroyed (events (run env (done g) w))
        = List.filter truthy (take k (locks g))).
Proof.
  intros Hlen done. subst done. unfold i2cdev_done.
  destruct (run env (done_from I2C_NUM_MAX 0 g) w) as [[o tr] w'] eqn:ER.
  destruct (done_from_abort I2C_NUM_MAX 0 g w o tr w' (eq_sym Hlen) ER)
    as [Ht Hg].
  unfold events, result; cbn [fst snd].
  split; intros Hf; [destruct (Ht Hf) as (k & h & x & tr0 & Hk)
                    |destruct (Hg Hf) as (k & h & x & tr0 & Hk)].
  all: destruct Hk as (_ & Hl & Hth & -> & -> & Hdel & Hdes).
  all: rewrite Nat.sub_0_r in Hdes; change (drop 0 (locks g)) with (locks g) in Hdes.
  all: exists k, h, x, tr0.
  all: split_and!; try assumption; try reflexivity.
  all: try (apply truthy_true; assumption).
  all: intros p Hp; apply Hdel in Hp; lia.
Qed.
End Properties.

(** ** The configuration cache and the write result on a scripted driver *)

(** [FakeDriver.g2] is the state [i2cdev_init] leaves behind. *)
Example i2cdev_init_two_ports :
  result (run FakeDriver.env (i2cdev_init 2 FakeDriver.g0) FakeDriver.boot)
  = Done (ESP_OK, FakeDriver.g2).
Proof. reflexivity. Qed.

(** Claim C1.  Two reads in a row from the same device, hence with the same
    configuration, on a driver where everything succeeds: the second read
    deletes, configures and installs the port driver again. *)
Theorem second_transaction_reconfigures_again :
  let rd := i2c_dev_read 1000 1 (Some FakeDriver.sensor) NULL 0 6000 2 in
  exists tr1 w1 tr2 w2,
    run FakeDriver.env (rd FakeDriver.g2) FakeDriver.healthy
    = (Done (ESP_OK, FakeDriver.g2), tr1, w1)
    /\ run FakeDriver.env (rd FakeDriver.g2) w1
       = (Done (ESP_OK, FakeDriver.g2), tr2, w2)
    /\ reconfig_calls tr2
       = [ i2c_driver_delete 0;
           i2c_param_config 0 (with_master_mode (cfg FakeDriver.sensor));
           i2c_driver_install 0 I2C_MODE_MASTER 0 0 0 ].
Proof.
  do 4 eexists. split; [|split].
  - vm_compute. reflexivity.
  - vm_compute. reflexivity.
  - vm_compute. reflexivity.
Qed.

(** Claim C2.  Setting up port 0 for the sensor on a driver where the
    configure and install steps succeed returns [ESP_OK] after the full
    delete, configure, install cycle, and [configs[0]] is afterwards still
    the zero-filled element it was before, not the sensor's configuration in
    master mode. *)
Theorem applied_configuration_not_recorded :
  let desired := with_master_mode (cfg FakeDriver.sensor) in
  exists g',
    run FakeDriver.env
        (i2c_setup_port 0 (Some (cfg FakeDriver.sensor)) FakeDriver.g2)
        FakeDriver.healthy
    = (Done (ESP_OK, g'),
       [ (i2c_driver_delete 0, 0);
         (i2c_param_config 0 desired, ESP_OK);
         (i2c_driver_install 0 I2C_MODE_MASTER 0 0 0, ESP_OK) ],
       FakeDriver.healthy)
    /\ configs g' !! 0%nat = Some zero_config
    /\ zero_config <> desired.
Proof.
  exists FakeDriver.g2. split; [|split].
  - vm_compute. reflexivity.
  - reflexivity.
  - discriminate.
Qed.

(** Claim C3.  A write of four bytes on a bus where the transfer fails with
    [ESP_FAIL]: arguments, lock and port set-up are fine, the give succeeds,
    and the write returns [ESP_OK]; the same transfer failure in a read is
    returned as [ESP_FAIL]. *)
Theorem write_reports_success_on_failed_transfer :
  exists tr w' tr_r w_r,
    run FakeDriver.env
        (i2c_dev_write 1000 1 (Some FakeDriver.sensor) NULL 0 6000 4
                       FakeDriver.g2)
        FakeDriver.noisy
    = (Done (ESP_OK, FakeDriver.g2), tr, w')
    /\ transfer_result tr = Some ESP_FAIL
    /\ give_failed tr = false
    /\ run FakeDriver.env
           (i2c_dev_read 1000 1 (Some FakeDriver.sensor) NULL 0 6000 4
                         FakeDriver.g2)
           FakeDriver.noisy
       = (Done (ESP_FAIL, FakeDriver.g2), tr_r, w_r).
Proof.
  do 4 eexists. split_and!.
  - vm_compute. reflexivity.
  - vm_compute. reflexivity.
  - vm_compute. reflexivity.
  - vm_compute. reflexivity.
Qed.

(** ** Instances on the scripted driver *)

(** A read and a write with a null buffer, on the healthy driver. *)
Lemma invalid_arguments_no_effect_witness :
  (Some FakeDriver.sensor = None \/ NULL = NULL \/ 2 = 0)
  /\ run FakeDriver.env
       (i2c_dev_read 1000 1 (Some FakeDriver.sensor) 5000 3 NULL 2
                     FakeDriver.g2) FakeDriver.healthy
     = (Done (ESP_ERR_INVALID_ARG, FakeDriver.g2), [], FakeDriver.healthy)
  /\ run FakeDriver.env
       (i2c_dev_write 1000 1 (Some FakeDriver.sensor) 5000 3 NULL 2
                      FakeDriver.g2) FakeDriver.healthy
     = (Done (ESP_ERR_INVALID_ARG, FakeDriver.g2), [], FakeDriver.healthy).
Proof.
  split; [right; left; reflexivity|].
  apply (invalid_arguments_no_effect FakeDriver.env 1000 1
           (Some FakeDriver.sensor) 5000 3 NULL 2).
  right; left; reflexivity.
Defined.

(** A read and a write while the lock of port 0 cannot be taken. *)
Lemma lock_timeout_touches_nothing_witness :
  (6000 <> NULL /\ 2 <> 0
   /\ locks FakeDriver.g2 !! port FakeDriver.sensor = Some 100
   /\ fst (FakeDriver.env (xSemaphoreTake 100 (timeout_ticks 1000 1))
                          FakeDriver.stuck) = 0)
  /\ run FakeDriver.env
       (i2c_dev_read 1000 1 (Some FakeDriver.sensor) 5000 3 6000 2
                     FakeDriver.g2) FakeDriver.stuck
     = (Done (ESP_ERR_TIMEOUT, FakeDriver.g2),
        [(xSemaphoreTake 100 1000, 0); (take_msg 0, 0)], FakeDriver.stuck)
  /\ run FakeDriver.env
       (i2c_dev_write 1000 1 (Some FakeDriver.sensor) 5000 3 6000 2
                      FakeDriver.g2) FakeDriver.stuck
     = (Done (ESP_ERR_TIMEOUT, FakeDriver.g2),
        [(xSemaphoreTake 100 1000, 0); (take_msg 0, 0)], FakeDriver.stuck).
Proof.
  split.
  - split_and!; [discriminate | discriminate | reflexivity | reflexivity].
  - apply (lock_timeout_touches_nothing FakeDriver.env 1000 1
             FakeDriver.sensor 5000 3 6000 2 FakeDriver.g2 FakeDriver.stuck
             100);
      [discriminate | discriminate | reflexivity | reflexivity].
Defined.

(** A read and a write whose transfer fails: the lock is still given back
    once. *)
Lemma lock_released_exactly_once_witness :
  (6000 <> NULL /\ 2 <> 0
   /\ locks FakeDriver.g2 !! port FakeDriver.sensor = Some 100
   /\ configs FakeDriver.g2 !! port FakeDriver.sensor = Some zero_config
   /\ fst (FakeDriver.env (xSemaphoreTake 100 (timeout_ticks 1000 1))
                          FakeDriver.noisy) <> 0)
  /\ (gives (events (run FakeDriver.env
               (i2c_dev_read 1000 1 (Some FakeDriver.sensor) 5000 3 6000 2
                             FakeDriver.g2) FakeDriver.noisy)) = [100]
      /\ exists e,
           result (run FakeDriver.env
               (i2c_dev_read 1000 1 (Some FakeDriver.sensor) 5000 3 6000 2
                             FakeDriver.g2) FakeDriver.noisy)
           = Done (e, FakeDriver.g2))
  /\ (gives (events (run FakeDriver.env
               (i2c_dev_write 1000 1 (Some FakeDriver.sensor) 5000 3 6000 2
                              FakeDriver.g2) FakeDriver.noisy)) = [100]
      /\ exists e,
           result (run FakeDriver.env
               (i2c_dev_write 1000 1 (Some FakeDriver.sensor) 5000 3 6000 2
                              FakeDriver.g2) FakeDriver.noisy)
           = Done (e, FakeDriver.g2)).
Proof.
  split.
  - split_and!;
      [discriminate | discriminate | reflexivity | reflexivity | discriminate].
  - apply (lock_released_exactly_once FakeDriver.env 1000 1
             FakeDriver.sensor 5000 3 6000 2 FakeDriver.g2 FakeDriver.noisy
             100 zero_config);
      [discriminate | discriminate | reflexivity | reflexivity | discriminate].
Defined.

(** A read whose transfer succeeded and a write, both with a failing give. *)
Lemma release_failure_supersedes_witness :
  (give_failed (events (run FakeDriver.env
      (i2c_dev_read 1000 1 (Some FakeDriver.sensor) 5000 3 6000 2
                    FakeDriver.g2) FakeDriver.leaky)) = true
   /\ transfer_result (events (run FakeDriver.env
      (i2c_dev_read 1000 1 (Some FakeDriver.sensor) 5000 3 6000 2
                    FakeDriver.g2) FakeDriver.leaky)) = Some ESP_OK
   /\ result (run FakeDriver.env
      (i2c_dev_read 1000 1 (Some FakeDriver.sensor) 5000 3 6000 2
                    FakeDriver.g2) FakeDriver.leaky)
      = Done (ESP_FAIL, FakeDriver.g2))
  /\
  (give_failed (events (run FakeDriver.env
      (i2c_dev_write 1000 1 (Some FakeDriver.sensor) NULL 0 6000 4
                     FakeDriver.g2) FakeDriver.leaky)) = true
   /\ result (run FakeDriver.env
      (i2c_dev_write 1000 1 (Some FakeDriver.sensor) NULL 0 6000 4
                     FakeDriver.g2) FakeDriver.leaky)
      = Done (ESP_FAIL, FakeDriver.g2)).
Proof.
  split; [split; [reflexivity | split; [reflexivity|]] | split; [reflexivity|]].
  - apply (proj1 (release_failure_supersedes FakeDriver.env 1000 1
                    (Some FakeDriver.sensor) 5000 3 6000 2 FakeDriver.g2
                    FakeDriver.leaky)).
    reflexivity.
  - apply (proj2 (release_failure_supersedes FakeDriver.env 1000 1
                    (Some FakeDriver.sensor) NULL 0 6000 4 FakeDriver.g2
                    FakeDriver.leaky)).
    reflexivity.
Defined.

(** A read with a 3-byte register prefix and a 2-byte result from the
    sensor at 0x48: address bytes 0x90 and 0x91. *)
Lemma read_command_sequence_witness :
  (5000 <> NULL /\ 3 <> 0 /\ 0 <= addr FakeDriver.sensor < 128
   /\ link_handle (events (run FakeDriver.env
        (i2c_dev_read 1000 1 (Some FakeDriver.sensor) 5000 3 6000 2
                      FakeDriver.g2) FakeDriver.healthy)) = Some 200)
  /\ cmd_calls (events (run FakeDriver.env
        (i2c_dev_read 1000 1 (Some FakeDriver.sensor) 5000 3 6000 2
                      FakeDriver.g2) FakeDriver.healthy))
     = [ i2c_cmd_link_create;
         i2c_master_start 200;
         i2c_master_write_byte 200 144 true;
         i2c_master_write 200 5000 3 true;
         i2c_master_start 200;
         i2c_master_write_byte 200 145 true;
         i2c_master_read 200 6000 2 I2C_MASTER_LAST_NACK;
         i2c_master_stop 200;
         i2c_master_cmd_begin 0 200 1000;
         i2c_cmd_link_delete 200 ].
Proof.
  split.
  - split_and!; [discriminate | discriminate | | | reflexivity];
      [discriminate | reflexivity].
  - apply (read_command_sequence FakeDriver.env 1000 1 FakeDriver.sensor
             5000 3 6000 2 FakeDriver.g2 FakeDriver.healthy 200);
      [discriminate | discriminate | | reflexivity].
    split; [discriminate | reflexivity].
Defined.

(** A write of 4 data bytes with no register prefix. *)
Lemma write_command_sequence_witness :
  (0 <= addr FakeDriver.sensor < 128
   /\ link_handle (events (run FakeDriver.env
        (i2c_dev_write 1000 1 (Some FakeDriver.sensor) NULL 0 6000 4
                       FakeDriver.g2) FakeDriver.healthy)) = Some 200)
  /\ cmd_calls (events (run FakeDriver.env
        (i2c_dev_write 1000 1 (Some FakeDriver.sensor) NULL 0 6000 4
                       FakeDriver.g2) FakeDriver.healthy))
     = [ i2c_cmd_link_create;
         i2c_master_start 200;
         i2c_master_write_byte 200 144 true;
         i2c_master_write 200 6000 4 true;
         i2c_master_stop 200;
         i2c_master_cmd_begin 0 200 1000;
         i2c_cmd_link_delete 200 ].
Proof.
  split.
  - split_and!; [discriminate | reflexivity | reflexivity].
  - apply (write_command_sequence FakeDriver.env 1000 1 FakeDriver.sensor
             NULL 0 6000 4 FakeDriver.g2 FakeDriver.healthy 200);
      [|reflexivity].
    split; [discriminate | reflexivity].
Defined.

(** Shutdown of two ports when the second lock cannot be taken, and when it
    cannot be given back: port 0 is torn down, port 1 keeps its lock. *)
Lemma shutdown_stops_at_lock_failure_witness :
  let done := i2cdev_done 2 1000 1 FakeDriver.g2 in
  (length (locks FakeDriver.g2) = 2%nat
   /\ take_timed_out (events (run FakeDriver.env done FakeDriver.jammed)) = true
   /\ give_failed (events (run FakeDriver.env done FakeDriver.torn)) = true)
  /\ (exists k h x tr0,
        locks FakeDriver.g2 !! k = Some h /\ h <> NULL
        /\ result (run FakeDriver.env done FakeDriver.jammed)
           = Done (ESP_ERR_TIMEOUT, FakeDriver.g2)
        /\ events (run FakeDriver.env done FakeDriver.jammed)
           = tr0 ++ [(xSemaphoreTake h (timeout_ticks 1000 1), 0);
                     (take_msg k, x)]
        /\ (forall p,
              In p (deleted_ports
                      (events (run FakeDriver.env done FakeDriver.jammed)))
              -> (p < k)%nat)
        /\ destroyed (events (run FakeDriver.env done FakeDriver.jammed))
           = List.filter truthy (take k (locks FakeDriver.g2)))
  /\ (exists k h x tr0,
        locks FakeDriver.g2 !! k = Some h /\ h <> NULL
        /\ result (run FakeDriver.env done FakeDriver.torn)
           = Done (ESP_FAIL, FakeDriver.g2)
        /\ events (run FakeDriver.env done FakeDriver.torn)
           = tr0 ++ [(xSemaphoreGive h, 0); (give_msg k, x)]
        /\ (forall p,
              In p (deleted_ports
                      (events (run FakeDriver.env done FakeDriver.torn)))
              -> (p <= k)%nat)
        /\ destroyed (events (run FakeDriver.env done FakeDriver.torn))
           = List.filter truthy (take k (locks FakeDriver.g2))).
Proof.
  intros done. split; [split_and!; reflexivity|]. split.
  - apply (proj1 (shutdown_stops_at_lock_failure FakeDriver.env 2 1000 1
                    FakeDriver.g2 FakeDriver.jammed eq_refl)).
    reflexivity.
  - apply (proj2 (shutdown_stops_at_lock_failure FakeDriver.env 2 1000 1
                    FakeDriver.g2 FakeDriver.torn eq_refl)).
    reflexivity.
Defined.

(** ** More symbolic execution *)

(** Turns the tests against [ESP_OK] into equations. *)
Ltac use_tests :=
  repeat match goal with
         | H : negb (_ =? _) = true |- _ => apply negb_true_iff in H
         | H : negb (_ =? _) = false |- _ => apply negb_false_iff in H
         | H : (?r =? ESP_OK) = true |- _ => apply Z.eqb_eq in H; subst r
         end.

(** Evaluates [unlocked_calls] along a trace, with what is known of the
    answers and of [locks]. *)
Ltac under_lock :=
  repeat (cbn [unlocked_calls call_port];
          first [ rewrite Z.eqb_refl
                | match goal with
                  | H : truthy _ = _ |- _ => rewrite H
                  | H : _ !! _ = Some _ |- _ => rewrite H
                  end ]).

Section Lifecycle.
Context {W : Type}.
Variable env : call -> W -> Z * W.
Variable I2C_NUM_MAX : nat.
Variable CONFIG_I2CDEV_TIMEOUT : Z.
Variable portTICK_RATE_MS : Z.

Abbreviation lc_ticks :=
  (timeout_ticks CONFIG_I2CDEV_TIMEOUT portTICK_RATE_MS).
Abbreviation lc_done_from :=
  (i2cdev_done_from CONFIG_I2CDEV_TIMEOUT portTICK_RATE_MS).
Abbreviation lc_done :=
  (i2cdev_done I2C_NUM_MAX CONFIG_I2CDEV_TIMEOUT portTICK_RATE_MS).
Abbreviation creates := (map (pair xSemaphoreCreateMutex)).

Lemma created_cons (e : event) (tr : trace) :
  created (e :: tr)
  = match fst e with
    | xSemaphoreCreateMutex => snd e :: created tr
    | _ => created tr
    end.
Proof. destruct e as [[] ?]; reflexivity. Qed.

Lemma globals_eta (g : Globals) : mk_globals (locks g) (configs g) = g.
Proof. destruct g; reflexivity. Qed.

(** The loop of [i2cdev_init] from port [i] on, with [n] ports left. *)
Lemma init_from_spec (n : nat) :
  forall (i : nat) (g : Globals) (w : W) o tr w',
  (i + n)%nat = length (locks g) ->
  run env (i2cdev_init_from n i g) w = (o, tr, w') ->
  exists e,
    o = Done (e, mk_globals
                   (take i (locks g) ++ created tr
                    ++ drop (i + length (created tr)) (locks g))
                   (configs g))
    /\ ((e = ESP_OK /\ forallb truthy (created tr) = true
         /\ length (created tr) = n /\ tr = creates (created tr))
        \/ (e = ESP_FAIL
            /\ exists hs x,
                 created tr = hs ++ [NULL] /\ forallb truthy hs = true
                 /\ (length hs < n)%nat
                 /\ tr = creates (created tr)
                         ++ [(create_msg (i + length hs), x)])).
Proof.
  induction n as [|n IH]; intros i g w o tr w' Hlen.
  - intros [= <- <- <-]. exists ESP_OK. split.
    + cbn [created omap list_omap length app]. rewrite Nat.add_0_r, take_drop.
      rewrite globals_eta. reflexivity.
    + left. repeat split.
  - cbn [i2cdev_init_from].
    assert (is_Some (locks g !! i)) as [h0 Hh] by (apply lookup_lt_is_Some; lia).
    assert (Hi : (i < length (locks g))%nat) by lia.
    exec env.
    + (* the mutex of port [i] is created, the loop goes on *)
      match goal with
      | |- context [run env ?p ?w0] =>
          destruct (run env p w0) as [[o1 tr1] wf] eqn:ER
      end.
      apply IH in ER; [|cbn [locks]; rewrite length_insert; lia].
      cbn [locks configs] in ER.
      destruct ER as (e & -> & Hcase). intros [= <- <- <-].
      exists e. rewrite created_cons; cbn [fst snd length].
      split.
      * do 2 f_equal.
        rewrite (take_S_r _ _ r) by (apply list_lookup_insert_eq; lia).
        rewrite take_insert_ge by lia.
        rewrite drop_insert_lt by lia.
        rewrite <- app_assoc. cbn [app].
        replace (i + S (length (created tr1)))%nat
          with (S i + length (created tr1))%nat by lia.
        reflexivity.
      * destruct Hcase as [(-> & Hall & Hn & Htr)
                          |(-> & hs & x & Hc & Hall & Hn & Htr)].
        -- left. cbn [forallb map length]. rewrite E0, Hall.
           split_and!; try reflexivity; [lia | f_equal; exact Htr].
        -- right. split; [reflexivity|]. exists (r :: hs), x.
           rewrite Hc in Htr |- *. cbn [forallb length app map].
           rewrite E0, Hall.
           split_and!; try reflexivity; try lia.
           replace (i + S (length hs))%nat with (S i + length hs)%nat by lia.
           f_equal; exact Htr.
    + (* no mutex for port [i] *)
      apply truthy_false in E0. subst r.
      intros [= <- <- <-]. exists ESP_FAIL.
      cbn [created omap list_omap fst snd length app]. split.
      * do 2 f_equal. rewrite insert_take_drop by lia.
        replace (i + 1)%nat with (S i) by lia. reflexivity.
      * right. split; [reflexivity|]. exists [], r0.
        cbn [length app forallb]. rewrite Nat.add_0_r.
        split_and!; try reflexivity; lia.
Qed.

Lemma forallb_truthy_snoc_null (hs : list Z) :
  forallb truthy (hs ++ [NULL]) = false.
Proof.
  rewrite forallb_app. cbn. apply andb_false_r.
Qed.

(** Property X1.  When no [xSemaphoreCreateMutex] answers null,
    [i2cdev_init] returns [ESP_OK] after exactly [I2C_NUM_MAX] calls, all of
    them creations, and [locks] then holds the handles it was given, in
    port order; [configs] is untouched. *)
Theorem i2cdev_init_creates_all (g : Globals) (w : W) :
  length (locks g) = I2C_NUM_MAX ->
  forallb truthy (created (events (run env (i2cdev_init I2C_NUM_MAX g) w)))
  = true ->
  result (run env (i2cdev_init I2C_NUM_MAX g) w)
  = Done (ESP_OK,
          mk_globals (created (events (run env (i2cdev_init I2C_NUM_MAX g) w)))
                     (configs g))
  /\ length (created (events (run env (i2cdev_init I2C_NUM_MAX g) w)))
     = I2C_NUM_MAX
  /\ events (run env (i2cdev_init I2C_NUM_MAX g) w)
     = creates (created (events (run env (i2cdev_init I2C_NUM_MAX g) w))).
Proof.
  intros Hlen. unfold i2cdev_init.
  destruct (run env (i2cdev_init_from I2C_NUM_MAX 0 g) w) as [[o tr] w']
    eqn:ER.
  destruct (init_from_spec I2C_NUM_MAX 0 g w o tr w' (eq_sym Hlen) ER)
    as (e & -> & Hcase).
  unfold events, result; cbn [fst snd]. intros Hall.
  destruct Hcase as [(-> & _ & Hn & Htr)|(_ & hs & x & Hc & _)].
  - split_and!; [|exact Hn|exact Htr].
    cbn [take app Nat.add]. rewrite drop_ge, app_nil_r by lia.
    reflexivity.
  - rewrite Hc, forallb_truthy_snoc_null in Hall. discriminate Hall.
Qed.

(** Property X2.  When some creation answers null, [i2cdev_init] returns
    [ESP_FAIL] at that port after logging it.  The mutexes created for the
    earlier ports stay in [locks] and none is destroyed (the trace holds
    creations and the diagnostic only); the failing port's entry is null and
    the later entries are what they were. *)
Theorem i2cdev_init_stops_at_first_failure (g : Globals) (w : W) :
  length (locks g) = I2C_NUM_MAX ->
  forallb truthy (created (events (run env (i2cdev_init I2C_NUM_MAX g) w)))
  = false ->
  exists hs x,
    forallb truthy hs = true
    /\ (length hs < I2C_NUM_MAX)%nat
    /\ events (run env (i2cdev_init I2C_NUM_MAX g) w)
       = creates (hs ++ [NULL]) ++ [(create_msg (length hs), x)]
    /\ result (run env (i2cdev_init I2C_NUM_MAX g) w)
       = Done (ESP_FAIL,
               mk_globals (hs ++ NULL :: drop (S (length hs)) (locks g))
                          (configs g)).
Proof.
  intros Hlen. unfold i2cdev_init.
  destruct (run env (i2cdev_init_from I2C_NUM_MAX 0 g) w) as [[o tr] w']
    eqn:ER.
  destruct (init_from_spec I2C_NUM_MAX 0 g w o tr w' (eq_sym Hlen) ER)
    as (e & -> & Hcase).
  unfold events, result; cbn [fst snd]. intros Hall.
  destruct Hcase as [(_ & Hall' & _)|(-> & hs & x & Hc & Hhs & Hn & Htr)].
  - rewrite Hall' in Hall. discriminate Hall.
  - exists hs, x. rewrite Hc in Htr |- *.
    split_and!; [exact Hhs|exact Hn|exact Htr|].
    rewrite length_app. cbn [length take app Nat.add].
    rewrite <- app_assoc. cbn [app].
    replace (length hs + 1)%nat with (S (length hs)) by lia. reflexivity.
Qed.

(** The loop of [i2cdev_done] when no take times out and no give fails. *)
Lemma done_from_complete (n : nat) :
  forall (i : nat) (g : Globals) (w : W) o tr w',
  (i + n)%nat = length (locks g) ->
  run env (lc_done_from n i g) w = (o, tr, w') ->
  take_timed_out tr = false ->
  give_failed tr = false ->
  o = Done (ESP_OK, g)
  /\ deleted_ports tr = live_from i (drop i (locks g))
  /\ destroyed tr = List.filter truthy (drop i (locks g)).
Proof.
  induction n as [|n IH]; intros i g w o tr w' Hlen.
  - intros [= <- <- <-] _ _. rewrite drop_ge by lia. repeat split.
  - cbn [i2cdev_done_from].
    assert (is_Some (locks g !! i)) as [h Hh] by (apply lookup_lt_is_Some; lia).
    assert (Hlen' : (S i + n)%nat = length (locks g)) by lia.
    rewrite (drop_S _ _ _ Hh). cbn [live_from List.filter].
    specialize (IH (S i) g).
    exec env.
    all: match goal with
         | |- context [run env ?p ?w0] =>
             destruct (run env p w0) as [[o1 tr1] wf] eqn:ER;
             specialize (IH _ _ _ _ Hlen' ER)
         | _ => clear IH
         end.
    all: intros [= <- <- <-].
    all: use_truthy.
    all: cbn [take_timed_out give_failed existsb fst snd orb].
    all: repeat match goal with
           | H : (_ =? 0) = false |- _ => rewrite H; clear H
           end.
    all: cbn [orb]; try (intros; discriminate).
    + intros Ht Hg. destruct (IH Ht Hg) as (-> & Hdel & Hdes).
      rewrite !deleted_ports_cons, !destroyed_cons; cbn [fst].
      rewrite Hdel, Hdes. repeat split.
    + change (truthy 0) with false. cbn iota. exact IH.
Qed.

(** Property X3.  When no take times out and no give fails,
    [i2cdev_done] returns [ESP_OK]; it deletes the driver of exactly the
    ports whose lock is non-null, in port order, and destroys exactly those
    locks.  The array itself is left as it was: the destroyed handles are
    not reset to null. *)
Theorem i2cdev_done_complete (g : Globals) (w : W) :
  length (locks g) = I2C_NUM_MAX ->
  take_timed_out (events (run env (lc_done g) w)) = false ->
  give_failed (events (run env (lc_done g) w)) = false ->
  result (run env (lc_done g) w) = Done (ESP_OK, g)
  /\ deleted_ports (events (run env (lc_done g) w)) = live_from 0 (locks g)
  /\ destroyed (events (run env (lc_done g) w))
     = List.filter truthy (locks g).
Proof.
  intros Hlen. unfold i2cdev_done.
  destruct (run env (lc_done_from I2C_NUM_MAX 0 g) w) as [[o tr] w'] eqn:ER.
  unfold events, result; cbn [fst snd].
  exact (done_from_complete I2C_NUM_MAX 0 g w o tr w' (eq_sym Hlen) ER).
Qed.

Lemma done_from_nothing (n : nat) :
  forall (i : nat) (g : Globals) (w : W),
  (i + n)%nat = length (locks g) ->
  Forall (eq NULL) (locks g) ->
  run env (lc_done_from n i g) w = (Done (ESP_OK, g), [], w).
Proof.
  induction n as [|n IH]; intros i g w Hlen Hnull; [reflexivity|].
  cbn [i2cdev_done_from].
  assert (is_Some (locks g !! i)) as [h Hh] by (apply lookup_lt_is_Some; lia).
  rewrite <- (proj1 (Forall_lookup _ _) Hnull i h Hh) in Hh.
  unfold_code. rewrite Hh. unfold_code.
  change (truthy NULL) with false. cbn iota.
  apply IH; [lia | exact Hnull].
Qed.

(** Property X4.  On an array of null locks (nothing was initialised)
    [i2cdev_done] returns [ESP_OK] without a single external call. *)
Theorem i2cdev_done_uninitialised (g : Globals) (w : W) :
  length (locks g) = I2C_NUM_MAX ->
  Forall (eq NULL) (locks g) ->
  run env (lc_done g) w = (Done (ESP_OK, g), [], w).
Proof.
  intros Hlen Hnull. apply done_from_nothing; [symmetry; exact Hlen | exact Hnull].
Qed.

Lemma filter_all (f : Z -> bool) (l : list Z) :
  forallb f l = true -> List.filter f l = l.
Proof.
  induction l as [|x l IH]; [reflexivity|].
  cbn [forallb List.filter]. intros [Hx Hl]%andb_true_iff.
  rewrite Hx, (IH Hl). reflexivity.
Qed.

Lemma live_from_all (l : list Z) :
  forall i, forallb truthy l = true -> live_from i l = seq i (length l).
Proof.
  induction l as [|x l IH]; intros i; [reflexivity|].
  cbn [forallb live_from length seq]. intros [Hx Hl]%andb_true_iff.
  rewrite Hx, (IH _ Hl). reflexivity.
Qed.

(** Property X5.  After a successful [i2cdev_init], a shutdown in which no
    take or give fails deletes the driver of every port and destroys exactly
    the mutexes that the initialisation created, in the same order. *)
Theorem init_then_done_destroys_what_was_created
    (g g1 : Globals) (w w1 : W) (tr1 : trace) :
  length (locks g) = I2C_NUM_MAX ->
  run env (i2cdev_init I2C_NUM_MAX g) w = (Done (ESP_OK, g1), tr1, w1) ->
  take_timed_out (events (run env (lc_done g1) w1)) = false ->
  give_failed (events (run env (lc_done g1) w1)) = false ->
  result (run env (lc_done g1) w1) = Done (ESP_OK, g1)
  /\ destroyed (events (run env (lc_done g1) w1)) = created tr1
  /\ deleted_ports (events (run env (lc_done g1) w1)) = seq 0 I2C_NUM_MAX.
Proof.
  intros Hlen Hinit Ht Hg. unfold i2cdev_init in Hinit.
  destruct (init_from_spec I2C_NUM_MAX 0 g w _ _ _ (eq_sym Hlen) Hinit)
    as (e & Ho & Hcase).
  injection Ho as <- ->.
  destruct Hcase as [(_ & Hall & Hn & _)|(He & _)]; [|discriminate He].
  assert (Hnil : drop (length (created tr1)) (locks g) = [])
    by (apply drop_ge; lia).
  cbn [take app Nat.add] in Ht, Hg |- *.
  rewrite Hnil, app_nil_r in Ht, Hg |- *.
  destruct (i2cdev_done_complete _ w1 (Hn : length (locks (mk_globals _ _)) = _)
              Ht Hg) as (Hr & Hdel & Hdes).
  cbn [locks] in Hdel, Hdes.
  rewrite filter_all in Hdes by exact Hall.
  rewrite live_from_all, Hn in Hdel by exact Hall.
  auto.
Qed.

(** Property X6.  A completed shutdown leaves [locks] unchanged, so a second
    shutdown that also completes hands the same handles to
    [vSemaphoreDelete] once more. *)
Theorem i2cdev_done_twice_destroys_twice
    (g g1 : Globals) (w w1 : W) (tr1 : trace) (e : Z) :
  length (locks g) = I2C_NUM_MAX ->
  run env (lc_done g) w = (Done (e, g1), tr1, w1) ->
  take_timed_out tr1 = false -> give_failed tr1 = false ->
  take_timed_out (events (run env (lc_done g1) w1)) = false ->
  give_failed (events (run env (lc_done g1) w1)) = false ->
  e = ESP_OK /\ g1 = g
  /\ destroyed tr1 = List.filter truthy (locks g)
  /\ destroyed (events (run env (lc_done g1) w1)) = destroyed tr1.
Proof.
  intros Hlen Hrun Ht1 Hg1.
  pose proof (i2cdev_done_complete g w Hlen) as H1.
  rewrite Hrun in H1. unfold events, result in H1; cbn [fst snd] in H1.
  destruct (H1 Ht1 Hg1) as (Hres & _ & Hdes1).
  injection Hres as -> ->. intros Ht2 Hg2. split; [reflexivity|].
  destruct (i2cdev_done_complete g w1 Hlen Ht2 Hg2) as (_ & _ & Hdes2).
  rewrite Hdes1, Hdes2. auto.
Qed.

Lemma done_from_under_lock (n : nat) :
  forall (i : nat) (g : Globals) (w : W),
  unlocked_calls g None (events (run env (lc_done_from n i g) w)) = [].
Proof.
  induction n as [|n IH]; intros i g w; [reflexivity|].
  cbn [i2cdev_done_from]. specialize (IH (S i) g).
  exec env.
  all: try match goal with
         | |- context [run env ?p ?w0] =>
             specialize (IH w0);
             destruct (run env p w0) as [[o1 tr1] wf]
         end; unfold_code.
  all: under_lock; try reflexivity; exact IH.
Qed.

(** Property X7.  In [i2cdev_done] every [i2c_driver_delete] is made while
    the semaphore stored in [locks] for that port is held. *)
Theorem shutdown_calls_under_lock (g : Globals) (w : W) :
  unlocked_calls g None (events (run env (lc_done g) w)) = [].
Proof. apply done_from_under_lock. Qed.
End Lifecycle.

Section Transactions.
Context {W : Type}.
Variable env : call -> W -> Z * W.
Variable CONFIG_I2CDEV_TIMEOUT : Z.
Variable portTICK_RATE_MS : Z.

Abbreviation tx_ticks :=
  (timeout_ticks CONFIG_I2CDEV_TIMEOUT portTICK_RATE_MS).
Abbreviation tx_read :=
  (i2c_dev_read CONFIG_I2CDEV_TIMEOUT portTICK_RATE_MS).
Abbreviation tx_write :=
  (i2c_dev_write CONFIG_I2CDEV_TIMEOUT portTICK_RATE_MS).

(** Property X8.  [cfg_equal] is reflexive, symmetric and transitive, and
    it does not look at [mode]. *)
Theorem cfg_equal_equivalence (a b c : i2c_config_t) :
  cfg_equal a a = true
  /\ cfg_equal a b = cfg_equal b a
  /\ (cfg_equal a b = true -> cfg_equal b c = true -> cfg_equal a c = true)
  /\ cfg_equal (with_master_mode a) b = cfg_equal a b
  /\ cfg_equal a (with_master_mode b) = cfg_equal a b.
Proof.
  unfold cfg_equal. split_and!.
  - rewrite !Z.eqb_refl. reflexivity.
  - rewrite (Z.eqb_sym (scl_io_num a)), (Z.eqb_sym (sda_io_num a)),
      (Z.eqb_sym (scl_pullup_en a)), (Z.eqb_sym (sda_pullup_en a)),
      (Z.eqb_sym (master_clk_speed a)). reflexivity.
  - rewrite !andb_true_iff, !Z.eqb_eq. intuition congruence.
  - reflexivity.
  - reflexivity.
Qed.

(** Property X9.  When the configuration compares equal to the array
    element, [i2c_setup_port] returns [ESP_OK] without any call.  Otherwise
    its first call deletes the driver of the port, and that is the only
    delete. *)
Theorem i2c_setup_port_hit_or_miss
    (p : nat) (c cached : i2c_config_t) (g : Globals) (w : W) :
  configs g !! p = Some cached ->
  (cfg_equal c cached = true ->
   run env (i2c_setup_port p (Some c) g) w = (Done (ESP_OK, g), [], w))
  /\ (cfg_equal c cached = false ->
      deleted_ports (events (run env (i2c_setup_port p (Some c) g) w)) = [p]
      /\ exists r tr,
           events (run env (i2c_setup_port p (Some c) g) w)
           = (i2c_driver_delete p, r) :: tr).
Proof.
  intros Hc. split; intros Heq; unfold_code; rewrite Hc; unfold_code;
    rewrite Heq; unfold_code; [reflexivity|].
  exec env; split; try reflexivity; eauto.
Qed.

(** Property X10.  Whenever [i2c_setup_port] returns a code other than
    [ESP_OK] for a non-null configuration, that code is the first failing
    answer of [i2c_param_config] or [i2c_driver_install]; by then the driver
    of the port has been deleted and no install has succeeded. *)
Theorem i2c_setup_port_error_leaves_port_down
    (p : nat) (c : i2c_config_t) (g g' : Globals) (w : W) (e : Z) :
  result (run env (i2c_setup_port p (Some c) g) w) = Done (e, g') ->
  e <> ESP_OK ->
  apply_error (events (run env (i2c_setup_port p (Some c) g) w)) = Some e
  /\ deleted_ports (events (run env (i2c_setup_port p (Some c) g) w)) = [p]
  /\ installs_ok (events (run env (i2c_setup_port p (Some c) g) w)) = [].
Proof.
  exec env; intros [= <- <-] He; try congruence; use_tests.
  all: unfold apply_error, installs_ok, deleted_ports.
  all: cbn [omap list_omap head fst snd].
  all: repeat match goal with H : (_ =? ESP_OK) = false |- _ => rewrite H end.
  all: change (ESP_OK =? ESP_OK) with true; cbn iota.
  all: repeat split.
Qed.

(** Property X11.  When the configuration differs from the array element
    and [i2c_setup_port] returns [ESP_OK], its calls are exactly: delete,
    configure with the device's pins, pull-ups and clock and with mode
    master, install in master mode. *)
Theorem i2c_setup_port_ok_installs
    (p : nat) (c cached : i2c_config_t) (g g' : Globals) (w : W) :
  configs g !! p = Some cached ->
  cfg_equal c cached = false ->
  result (run env (i2c_setup_port p (Some c) g) w) = Done (ESP_OK, g') ->
  map fst (events (run env (i2c_setup_port p (Some c) g) w))
  = [ i2c_driver_delete p;
      i2c_param_config p (with_master_mode c);
      i2c_driver_install p I2C_MODE_MASTER 0 0 0 ]
  /\ installs_ok (events (run env (i2c_setup_port p (Some c) g) w)) = [p].
Proof.
  intros Hc Hne. unfold_code. rewrite Hc. unfold_code. rewrite Hne.
  exec env; intros Hres; inversion Hres; subst; use_tests; try discriminate.
  all: unfold installs_ok; cbn [omap list_omap fst snd map].
  all: change (ESP_OK =? ESP_OK) with true; cbn iota; split; reflexivity.
Qed.

(** Property X12.  In a read or a write whose port set-up fails, no call of
    the command-link interface is made (no link is created, nothing is
    transferred), and, the lock being given back, the call returns the
    set-up error. *)
Theorem config_error_skips_transfer
    (dev : option i2c_dev_t) (p1 : ptr) (n1 : Z) (p2 : ptr) (n2 : Z)
    (g : Globals) (w : W) (e : Z) :
  (apply_error (events (run env (tx_read dev p1 n1 p2 n2 g) w)) = Some e ->
   cmd_calls (events (run env (tx_read dev p1 n1 p2 n2 g) w)) = []
   /\ (give_failed (events (run env (tx_read dev p1 n1 p2 n2 g) w)) = false ->
       result (run env (tx_read dev p1 n1 p2 n2 g) w) = Done (e, g)))
  /\
  (apply_error (events (run env (tx_write dev p1 n1 p2 n2 g) w)) = Some e ->
   cmd_calls (events (run env (tx_write dev p1 n1 p2 n2 g) w)) = []
   /\ (give_failed (events (run env (tx_write dev p1 n1 p2 n2 g) w)) = false ->
       result (run env (tx_write dev p1 n1 p2 n2 g) w) = Done (e, g))).
Proof.
  split; destruct dev as [d|]; try discriminate; exec env.
  all: use_tests; use_truthy.
  all: unfold apply_error, give_failed.
  all: cbn [omap list_omap head existsb fst snd orb].
  all: repeat match goal with H : (_ =? ESP_OK) = false |- _ => rewrite H end.
  all: change (ESP_OK =? ESP_OK) with true; cbn iota.
  all: intros He; try discriminate He; injection He as <-.
  all: split; [reflexivity|intros Hg; try discriminate Hg; reflexivity].
Qed.

(** Property X13.  The command-link calls of any read that creates its link:
    the start, write-address, prefix frame appears if and only if the
    prefix pointer and size are both non-zero; the start, read-address,
    read, stop frame always follows. *)
Theorem read_command_sequence_any_prefix
    (d : i2c_dev_t) (p1 : ptr) (n1 : Z) (p2 : ptr) (n2 : Z)
    (g : Globals) (w : W) (cmd : Z) :
  0 <= addr d < 128 ->
  link_handle (events (run env (tx_read (Some d) p1 n1 p2 n2 g) w))
  = Some cmd ->
  cmd_calls (events (run env (tx_read (Some d) p1 n1 p2 n2 g) w)) =
    [ i2c_cmd_link_create ]
    ++ (if truthy p1 && truthy n1
        then [ i2c_master_start cmd;
               i2c_master_write_byte cmd (Z.shiftl (addr d) 1) true;
               i2c_master_write cmd p1 n1 true ]
        else [])
    ++ [ i2c_master_start cmd;
         i2c_master_write_byte cmd (Z.lor (Z.shiftl (addr d) 1) 1) true;
         i2c_master_read cmd p2 n2 I2C_MASTER_LAST_NACK;
         i2c_master_stop cmd;
         i2c_master_cmd_begin (port d) cmd tx_ticks;
         i2c_cmd_link_delete cmd ].
Proof.
  intros Ha. destruct (address_bytes _ Ha) as [Hw Hr].
  unfold_code. rewrite Hw, Hr. exec env.
  all: unfold link_handle; cbn [omap list_omap head fst snd]; intros Hc.
  all: try discriminate Hc.
  all: injection Hc as ->; reflexivity.
Qed.

(** Property X15.  Neither [i2c_dev_read] nor [i2c_dev_write] ever changes
    [locks] or [configs], whatever the driver answers. *)
Theorem transactions_keep_arrays
    (dev : option i2c_dev_t) (p1 : ptr) (n1 : Z) (p2 : ptr) (n2 : Z)
    (g g' : Globals) (w : W) (e : Z) :
  (result (run env (tx_read dev p1 n1 p2 n2 g) w) = Done (e, g') -> g' = g)
  /\ (result (run env (tx_write dev p1 n1 p2 n2 g) w) = Done (e, g')
      -> g' = g).
Proof.
  split.
  - apply i2c_dev_read_keeps_globals.
  - apply i2c_dev_write_keeps_globals.
Qed.

(** Property X16.  In a read or a write, every driver call on a port
    (delete, configure, install, transfer) is made while the semaphore
    stored in [locks] for that port is held: after a take that succeeded
    and before the give. *)
Theorem driver_calls_under_lock
    (dev : option i2c_dev_t) (p1 : ptr) (n1 : Z) (p2 : ptr) (n2 : Z)
    (g : Globals) (w : W) :
  unlocked_calls g None (events (run env (tx_read dev p1 n1 p2 n2 g) w)) = []
  /\ unlocked_calls g None (events (run env (tx_write dev p1 n1 p2 n2 g) w))
     = [].
Proof.
  split; destruct dev as [d|]; try reflexivity; exec env.
  all: under_lock; reflexivity.
Qed.

(** Property X17.  What the two functions can return.  A read returns
    [ESP_ERR_INVALID_ARG], [ESP_ERR_TIMEOUT], [ESP_FAIL], the failing
    answer of the port set-up, or the answer of its transfer.  A write
    returns one of the three codes, [ESP_OK], or the failing answer of the
    port set-up. *)
Theorem return_value_taxonomy
    (dev : option i2c_dev_t) (p1 : ptr) (n1 : Z) (p2 : ptr) (n2 : Z)
    (g g' : Globals) (w : W) (e : Z) :
  (result (run env (tx_read dev p1 n1 p2 n2 g) w) = Done (e, g') ->
   e = ESP_ERR_INVALID_ARG \/ e = ESP_ERR_TIMEOUT \/ e = ESP_FAIL
   \/ apply_error (events (run env (tx_read dev p1 n1 p2 n2 g) w)) = Some e
   \/ transfer_result (events (run env (tx_read dev p1 n1 p2 n2 g) w))
      = Some e)
  /\
  (result (run env (tx_write dev p1 n1 p2 n2 g) w) = Done (e, g') ->
   e = ESP_ERR_INVALID_ARG \/ e = ESP_ERR_TIMEOUT \/ e = ESP_FAIL
   \/ e = ESP_OK
   \/ apply_error (events (run env (tx_write dev p1 n1 p2 n2 g) w)) = Some e).
Proof.
  split; destruct dev as [d|]; exec env.
  all: intros Hres; inversion Hres; subst; clear Hres; use_tests.
  all: unfold apply_error, transfer_result.
  all: cbn [omap list_omap head fst snd].
  all: repeat match goal with H : (_ =? ESP_OK) = false |- _ => rewrite H end.
  all: change (ESP_OK =? ESP_OK) with true; cbn iota.
  all: tauto.
Qed.

(** Property X18.  The port of a device is not checked against the size of
    the arrays: with accepted buffer arguments and a port outside [locks],
    the read and the write subscript the array out of bounds before any
    call is made. *)
Theorem port_is_not_checked
    (d : i2c_dev_t) (p1 : ptr) (n1 : Z) (p2 : ptr) (n2 : Z)
    (g : Globals) (w : W) :
  p2 <> NULL -> n2 <> 0 ->
  locks g !! port d = None ->
  run env (tx_read (Some d) p1 n1 p2 n2 g) w = (Fault, [], w)
  /\ run env (tx_write (Some d) p1 n1 p2 n2 g) w = (Fault, [], w).
Proof.
  intros Hp Hn Hl. apply truthy_true in Hp, Hn.
  split; unfold_code; rewrite Hp, Hn; unfold_code; rewrite Hl; reflexivity.
Qed.
End Transactions.

(** ** Instances of the lifecycle and transaction properties *)

(** Two mutexes are created for two ports. *)
Lemma i2cdev_init_creates_all_witness :
  (length (locks FakeDriver.g0) = 2%nat
   /\ forallb truthy
        (created (events (run FakeDriver.env (i2cdev_init 2 FakeDriver.g0)
                              FakeDriver.boot))) = true)
  /\ result (run FakeDriver.env (i2cdev_init 2 FakeDriver.g0) FakeDriver.boot)
     = Done (ESP_OK, FakeDriver.g2)
  /\ length (created (events (run FakeDriver.env
                                 (i2cdev_init 2 FakeDriver.g0)
                                 FakeDriver.boot))) = 2%nat
  /\ events (run FakeDriver.env (i2cdev_init 2 FakeDriver.g0) FakeDriver.boot)
     = [(xSemaphoreCreateMutex, 100); (xSemaphoreCreateMutex, 101)].
Proof.
  split; [split; reflexivity|].
  apply (i2cdev_init_creates_all FakeDriver.env 2 FakeDriver.g0
           FakeDriver.boot); reflexivity.
Defined.

(** Three ports, the second mutex cannot be created. *)
Lemma i2cdev_init_stops_at_first_failure_witness :
  let g := mk_globals [7; 8; 9] [zero_config; zero_config; zero_config] in
  (length (locks g) = 3%nat
   /\ forallb truthy
        (created (events (run Script.env (i2cdev_init 3 g) [500; NULL; 0])))
      = false)
  /\ exists hs x,
       forallb truthy hs = true
       /\ (length hs < 3)%nat
       /\ events (run Script.env (i2cdev_init 3 g) [500; NULL; 0])
          = map (pair xSemaphoreCreateMutex) (hs ++ [NULL])
            ++ [(create_msg (length hs), x)]
       /\ result (run Script.env (i2cdev_init 3 g) [500; NULL; 0])
          = Done (ESP_FAIL,
                  mk_globals (hs ++ NULL :: drop (S (length hs)) (locks g))
                             (configs g)).
Proof.
  intros g. split; [split; reflexivity|].
  apply (i2cdev_init_stops_at_first_failure Script.env 3 g [500; NULL; 0]);
    reflexivity.
Defined.

(** Both ports are torn down. *)
Lemma i2cdev_done_complete_witness :
  let done := i2cdev_done 2 1000 1 FakeDriver.g2 in
  (length (locks FakeDriver.g2) = 2%nat
   /\ take_timed_out (events (run FakeDriver.env done FakeDriver.healthy))
      = false
   /\ give_failed (events (run FakeDriver.env done FakeDriver.healthy)) = false)
  /\ result (run FakeDriver.env done FakeDriver.healthy)
     = Done (ESP_OK, FakeDriver.g2)
  /\ deleted_ports (events (run FakeDriver.env done FakeDriver.healthy))
     = [0; 1]%nat
  /\ destroyed (events (run FakeDriver.env done FakeDriver.healthy))
     = [100; 101].
Proof.
  intros done. split; [split_and!; reflexivity|].
  apply (i2cdev_done_complete FakeDriver.env 2 1000 1 FakeDriver.g2
           FakeDriver.healthy); reflexivity.
Defined.

(** Shutdown before any initialisation. *)
Lemma i2cdev_done_uninitialised_witness :
  (length (locks FakeDriver.g0) = 2%nat
   /\ Forall (eq NULL) (locks FakeDriver.g0))
  /\ run FakeDriver.env (i2cdev_done 2 1000 1 FakeDriver.g0) FakeDriver.stuck
     = (Done (ESP_OK, FakeDriver.g0), [], FakeDriver.stuck).
Proof.
  split; [split; [reflexivity | repeat constructor]|].
  apply (i2cdev_done_uninitialised FakeDriver.env 2 1000 1 FakeDriver.g0
           FakeDriver.stuck); [reflexivity | repeat constructor].
Defined.

(** Initialisation followed by shutdown, on the script
    create, create, then take, delete, give, destroy for either port. *)
Lemma init_then_done_destroys_what_was_created_witness :
  let script := [100; 101; 1; 0; 1; 0; 1; 0; 1; 0] in
  let tr1 := [(xSemaphoreCreateMutex, 100); (xSemaphoreCreateMutex, 101)] in
  let w1 := [1; 0; 1; 0; 1; 0; 1; 0] in
  let done := i2cdev_done 2 1000 1 FakeDriver.g2 in
  (length (locks FakeDriver.g0) = 2%nat
   /\ run Script.env (i2cdev_init 2 FakeDriver.g0) script
      = (Done (ESP_OK, FakeDriver.g2), tr1, w1)
   /\ take_timed_out (events (run Script.env done w1)) = false
   /\ give_failed (events (run Script.env done w1)) = false)
  /\ result (run Script.env done w1) = Done (ESP_OK, FakeDriver.g2)
  /\ destroyed (events (run Script.env done w1)) = [100; 101]
  /\ deleted_ports (events (run Script.env done w1)) = [0; 1]%nat.
Proof.
  intros script tr1 w1 done. split; [split_and!; reflexivity|].
  apply (init_then_done_destroys_what_was_created Script.env 2 1000 1
           FakeDriver.g0 FakeDriver.g2 script w1 tr1); reflexivity.
Defined.

(** Two shutdowns in a row. *)
Lemma i2cdev_done_twice_destroys_twice_witness :
  let done := i2cdev_done 2 1000 1 FakeDriver.g2 in
  let tr1 := events (run FakeDriver.env done FakeDriver.healthy) in
  (length (locks FakeDriver.g2) = 2%nat
   /\ run FakeDriver.env done FakeDriver.healthy
      = (Done (ESP_OK, FakeDriver.g2), tr1, FakeDriver.healthy)
   /\ take_timed_out tr1 = false /\ give_failed tr1 = false)
  /\ ESP_OK = ESP_OK /\ FakeDriver.g2 = FakeDriver.g2
  /\ destroyed tr1 = [100; 101]
  /\ destroyed (events (run FakeDriver.env done FakeDriver.healthy))
     = destroyed tr1.
Proof.
  intros done tr1. split; [split_and!; reflexivity|].
  apply (i2cdev_done_twice_destroys_twice FakeDriver.env 2 1000 1
           FakeDriver.g2 FakeDriver.g2 FakeDriver.healthy FakeDriver.healthy
           tr1 ESP_OK); reflexivity.
Defined.

(** Two configurations that differ in mode only. *)
Lemma cfg_equal_equivalence_witness :
  let a := cfg FakeDriver.sensor in
  let b := mk_i2c_config I2C_MODE_SLAVE 21 1 22 1 100000 in
  (cfg_equal a b = true /\ cfg_equal b a = true)
  /\ cfg_equal a a = true.
Proof.
  intros a b. split; [split; reflexivity|].
  apply (proj1 (proj2 (proj2 (cfg_equal_equivalence a b a))));
    reflexivity.
Defined.

(** Port 0 set up for a zero-filled configuration and for the sensor. *)
Lemma i2c_setup_port_hit_or_miss_witness :
  (configs FakeDriver.g2 !! 0%nat = Some zero_config
   /\ cfg_equal zero_config zero_config = true
   /\ cfg_equal (cfg FakeDriver.sensor) zero_config = false)
  /\ run FakeDriver.env (i2c_setup_port 0 (Some zero_config) FakeDriver.g2)
         FakeDriver.healthy
     = (Done (ESP_OK, FakeDriver.g2), [], FakeDriver.healthy)
  /\ deleted_ports
       (events (run FakeDriver.env
                    (i2c_setup_port 0 (Some (cfg FakeDriver.sensor))
                                    FakeDriver.g2) FakeDriver.healthy))
     = [0%nat].
Proof.
  split; [split_and!; reflexivity|]. split.
  - apply (proj1 (i2c_setup_port_hit_or_miss FakeDriver.env 0 zero_config
                    zero_config FakeDriver.g2 FakeDriver.healthy eq_refl)).
    reflexivity.
  - apply (proj2 (i2c_setup_port_hit_or_miss FakeDriver.env 0
                    (cfg FakeDriver.sensor) zero_config FakeDriver.g2
                    FakeDriver.healthy eq_refl)).
    reflexivity.
Defined.

(** The pins are refused by [i2c_param_config]. *)
Lemma i2c_setup_port_error_leaves_port_down_witness :
  let bad := FakeDriver.mk (fun _ => 1) (fun _ => 1) 259 0 0 200 in
  let X := run FakeDriver.env
               (i2c_setup_port 0 (Some (cfg FakeDriver.sensor)) FakeDriver.g2)
               bad in
  (result X = Done (259, FakeDriver.g2) /\ 259 <> ESP_OK)
  /\ apply_error (events X) = Some 259
  /\ deleted_ports (events X) = [0%nat]
  /\ installs_ok (events X) = [].
Proof.
  intros bad X. split; [split; [reflexivity|discriminate]|].
  apply (i2c_setup_port_error_leaves_port_down FakeDriver.env 0
           (cfg FakeDriver.sensor) FakeDriver.g2 FakeDriver.g2 bad 259);
    [reflexivity|discriminate].
Defined.

(** The sensor's configuration is applied. *)
Lemma i2c_setup_port_ok_installs_witness :
  let X := run FakeDriver.env
               (i2c_setup_port 0 (Some (cfg FakeDriver.sensor)) FakeDriver.g2)
               FakeDriver.healthy in
  (configs FakeDriver.g2 !! 0%nat = Some zero_config
   /\ cfg_equal (cfg FakeDriver.sensor) zero_config = false
   /\ result X = Done (ESP_OK, FakeDriver.g2))
  /\ map fst (events X)
     = [ i2c_driver_delete 0;
         i2c_param_config 0 (with_master_mode (cfg FakeDriver.sensor));
         i2c_driver_install 0 I2C_MODE_MASTER 0 0 0 ]
  /\ installs_ok (events X) = [0%nat].
Proof.
  intros X. split; [split_and!; reflexivity|].
  apply (i2c_setup_port_ok_installs FakeDriver.env 0 (cfg FakeDriver.sensor)
           zero_config FakeDriver.g2 FakeDriver.g2 FakeDriver.healthy);
    reflexivity.
Defined.

(** A read and a write while [i2c_driver_install] fails with 259. *)
Lemma config_error_skips_transfer_witness :
  let bad := FakeDriver.mk (fun _ => 1) (fun _ => 1) 0 259 0 200 in
  let R := run FakeDriver.env
               (i2c_dev_read 1000 1 (Some FakeDriver.sensor) 5000 3 6000 2
                             FakeDriver.g2) bad in
  let Wr := run FakeDriver.env
                (i2c_dev_write 1000 1 (Some FakeDriver.sensor) 5000 3 6000 2
                               FakeDriver.g2) bad in
  (apply_error (events R) = Some 259 /\ give_failed (events R) = false
   /\ apply_error (events Wr) = Some 259 /\ give_failed (events Wr) = false)
  /\ (cmd_calls (events R) = [] /\ result R = Done (259, FakeDriver.g2))
  /\ (cmd_calls (events Wr) = [] /\ result Wr = Done (259, FakeDriver.g2)).
Proof.
  intros bad R Wr. split; [split_and!; reflexivity|].
  pose proof (config_error_skips_transfer FakeDriver.env 1000 1
                (Some FakeDriver.sensor) 5000 3 6000 2 FakeDriver.g2 bad 259)
    as [Hr Hw].
  split.
  - destruct (Hr eq_refl) as [Hc Hres]. split; [exact Hc | exact (Hres eq_refl)].
  - destruct (Hw eq_refl) as [Hc Hres]. split; [exact Hc | exact (Hres eq_refl)].
Defined.

(** A read of two bytes with no register prefix. *)
Lemma read_command_sequence_any_prefix_witness :
  let X := run FakeDriver.env
               (i2c_dev_read 1000 1 (Some FakeDriver.sensor) NULL 0 6000 2
                             FakeDriver.g2) FakeDriver.healthy in
  (0 <= addr FakeDriver.sensor < 128 /\ link_handle (events X) = Some 200)
  /\ cmd_calls (events X)
     = [ i2c_cmd_link_create;
         i2c_master_start 200;
         i2c_master_write_byte 200 145 true;
         i2c_master_read 200 6000 2 I2C_MASTER_LAST_NACK;
         i2c_master_stop 200;
         i2c_master_cmd_begin 0 200 1000;
         i2c_cmd_link_delete 200 ].
Proof.
  intros X. split; [split; [split; [discriminate | reflexivity] | reflexivity]|].
  apply (read_command_sequence_any_prefix FakeDriver.env 1000 1
           FakeDriver.sensor NULL 0 6000 2 FakeDriver.g2 FakeDriver.healthy
           200); [|reflexivity].
  split; [discriminate | reflexivity].
Defined.

(** A read and a write on the healthy driver. *)
Lemma transactions_keep_arrays_witness :
  (result (run FakeDriver.env
             (i2c_dev_read 1000 1 (Some FakeDriver.sensor) 5000 3 6000 2
                           FakeDriver.g2) FakeDriver.healthy)
   = Done (ESP_OK, FakeDriver.g2)
   /\ result (run FakeDriver.env
             (i2c_dev_write 1000 1 (Some FakeDriver.sensor) 5000 3 6000 2
                            FakeDriver.g2) FakeDriver.healthy)
      = Done (ESP_OK, FakeDriver.g2))
  /\ FakeDriver.g2 = FakeDriver.g2.
Proof.
  split; [split; reflexivity|].
  apply (proj1 (transactions_keep_arrays FakeDriver.env 1000 1
                  (Some FakeDriver.sensor) 5000 3 6000 2 FakeDriver.g2
                  FakeDriver.g2 FakeDriver.healthy ESP_OK)).
  reflexivity.
Defined.

(** A read whose transfer fails: the value returned is the transfer's. *)
Lemma return_value_taxonomy_witness :
  let X := run FakeDriver.env
               (i2c_dev_read 1000 1 (Some FakeDriver.sensor) 5000 3 6000 2
                             FakeDriver.g2) FakeDriver.noisy in
  result X = Done (ESP_FAIL, FakeDriver.g2)
  /\ (ESP_FAIL = ESP_ERR_INVALID_ARG \/ ESP_FAIL = ESP_ERR_TIMEOUT
      \/ ESP_FAIL = ESP_FAIL
      \/ apply_error (events X) = Some ESP_FAIL
      \/ transfer_result (events X) = Some ESP_FAIL).
Proof.
  intros X. split; [reflexivity|].
  apply (proj1 (return_value_taxonomy FakeDriver.env 1000 1
                  (Some FakeDriver.sensor) 5000 3 6000 2 FakeDriver.g2
                  FakeDriver.g2 FakeDriver.noisy ESP_FAIL)).
  reflexivity.
Defined.

(** A device on port 2 of a two-port build. *)
Lemma port_is_not_checked_witness :
  let d := mk_i2c_dev 2%nat (cfg FakeDriver.sensor) 72 in
  (6000 <> NULL /\ 2 <> 0 /\ locks FakeDriver.g2 !! port d = None)
  /\ run FakeDriver.env
       (i2c_dev_read 1000 1 (Some d) 5000 3 6000 2 FakeDriver.g2)
       FakeDriver.healthy
     = (Fault, [], FakeDriver.healthy)
  /\ run FakeDriver.env
       (i2c_dev_write 1000 1 (Some d) 5000 3 6000 2 FakeDriver.g2)
       FakeDriver.healthy
     = (Fault, [], FakeDriver.healthy).
Proof.
  intros d. split; [split_and!; [discriminate | discriminate | reflexivity]|].
  apply (port_is_not_checked FakeDriver.env 1000 1 d 5000 3 6000 2
           FakeDriver.g2 FakeDriver.healthy);
    [discriminate | discriminate | reflexivity].
Defined.

(** A read on a bus that does not answer. *)
Lemma i2c_dev_read_transfer_result_witness :
  let X := run FakeDriver.env
               (i2c_dev_read 1000 1 (Some FakeDriver.sensor) 5000 3 6000 2
                             FakeDriver.g2) FakeDriver.noisy in
  (transfer_result (events X) = Some ESP_FAIL
   /\ give_failed (events X) = false)
  /\ result X = Done (ESP_FAIL, FakeDriver.g2).
Proof.
  intros X. split; [split; reflexivity|].
  apply (i2c_dev_read_transfer_result FakeDriver.env 1000 1
           (Some FakeDriver.sensor) 5000 3 6000 2 FakeDriver.g2
           FakeDriver.noisy ESP_FAIL); reflexivity.
Defined.
